(** * disco/types/guild.py: the guild aggregate, its members and roles

    A shallow embedding of [Guild], [GuildMember] and [Role] together with
    the statements that relate the prose specification to the code.

    Python objects are records, dictionaries are [gmap]s, and a method is a
    computation over the object it mutates and the log of the calls it makes
    on [self.client] (the HTTP API and the gateway).  An exception aborts
    the computation but keeps the mutations made before it. *)

From Stdlib Require Import ZArith String List Bool Lia.
From stdpp Require Import base option gmap strings list pretty.

Local Open Scope Z_scope.

(** ** Values and exceptions *)

Definition snowflake : Type := Z.

(** Values that travel in the keyword arguments of an API call or in a
    gateway payload. *)
Inductive PyVal : Type :=
| PyNone
| PyBool (b : bool)
| PyInt (z : Z)
| PyStr (s : string)
| PyList (ids : list Z).

Definition kwargs : Type := list (string * PyVal).

Inductive Exn : Type :=
| APIException
| AttributeError
| OtherException (name : string).

Inductive Result (A : Type) : Type :=
| Return (a : A)
| Raise (e : Exn).
Arguments Return {A} a.
Arguments Raise {A} e.

(** [VerificationLevel = Enum(NONE=0, ...)] *)
Inductive VerificationLevel : Type := NONE | LOW | MEDIUM | HIGH | EXTREME.

(** Modelled from the spec: [disco.gateway.packets.OPCode] is not part of
    this source tree.  guild.py names one member of it, the "request full
    member list" signal; the other constructor stands for the rest. *)
Inductive OPCode : Type :=
| REQUEST_GUILD_MEMBERS
| OTHER_OPCODE (code : Z).

(** Modelled from the spec: [disco.types.permissions.PermissionValue] is not
    part of this source tree: "a bitset wrapper supporting union (+)".  The
    wrapper holds the raw integer in [value]. *)
Record PermissionValue : Type := { value : Z }.

(** [PermissionValue(x)]: a fresh wrapper around the raw integer of [x]. *)
Definition PermissionValue_new (raw : Z) : PermissionValue := {| value := raw |}.

(** [v += other]: union of the two bitsets. *)
Definition iadd (v other : PermissionValue) : PermissionValue :=
  {| value := Z.lor (value v) (value other) |}.

(** The registry of named permission bits ([disco.types.permissions.Permissions])
    is not part of this source tree either; the one constant guild.py reads
    is a parameter of the development. *)
Class Permissions : Type := { ADMINISTRATOR : Z }.

(** ** Entities *)

Module Types.

(** [disco.types.user.User]; guild.py reads its [id] only. *)
Record User : Type := { user_id : snowflake }.

(** [disco.types.channel.Channel] and [disco.types.voice.VoiceState]: the
    attributes guild.py reads or stamps. *)
Record Channel : Type := {
  channel_id : snowflake;
  channel_guild_id : option snowflake;
}.

Record VoiceState : Type := {
  voice_session_id : string;
  voice_guild_id : option snowflake;
  voice_user_id : snowflake;
}.

(** [class Emoji(GuildSubType)]; [guild_id = Field(None)] comes from
    [GuildSubType] and is [None] until it is stamped. *)
Record Emoji : Type := {
  emoji_guild_id : option snowflake;
  emoji_id : snowflake;
  emoji_name : string;
  emoji_require_colons : bool;
  emoji_managed : bool;
  emoji_roles : list snowflake;
}.

(** [class Role(GuildSubType)] *)
Record Role : Type := {
  role_guild_id : option snowflake;
  role_id : snowflake;
  role_name : string;
  role_hoist : bool;
  role_managed : bool;
  role_color : Z;
  role_permissions : PermissionValue;
  role_position : Z;
  role_mentionable : bool;
}.

(** [class GuildMember(GuildSubType)] *)
Record GuildMember : Type := {
  member_user : User;
  member_guild_id : option snowflake;
  member_nick : option string;
  member_mute : bool;
  member_deaf : bool;
  member_joined_at : string;
  member_roles : list snowflake;
}.

(** [GuildMember.id]: "Alias to the guild members user id". *)
Definition member_id (m : GuildMember) : snowflake := user_id (member_user m).

(** [class Guild(SlottedModel, Permissible)].  The field [presences] is left
    out: [Presence] is declared in another module and no method of guild.py
    reads it. *)
Record Guild : Type := {
  guild_id : snowflake;
  guild_owner_id : snowflake;
  guild_afk_channel_id : snowflake;
  guild_embed_channel_id : snowflake;
  guild_name : string;
  guild_icon : string;
  guild_splash : string;
  guild_region : string;
  guild_afk_timeout : Z;
  guild_embed_enabled : bool;
  guild_verification_level : VerificationLevel;
  guild_mfa_level : Z;
  guild_features : list string;
  guild_members : gmap snowflake GuildMember;
  guild_channels : gmap snowflake Channel;
  guild_roles : gmap snowflake Role;
  guild_emojis : gmap snowflake Emoji;
  guild_voice_states : gmap string VoiceState;
  guild_member_count : Z;
  guild_synced : bool;
}.

(** Attribute assignments [self.members = ms] and [self.synced = b]. *)
Definition set_members (ms : gmap snowflake GuildMember) (g : Guild) : Guild :=
  {| guild_id := guild_id g; guild_owner_id := guild_owner_id g;
     guild_afk_channel_id := guild_afk_channel_id g;
     guild_embed_channel_id := guild_embed_channel_id g;
     guild_name := guild_name g; guild_icon := guild_icon g;
     guild_splash := guild_splash g; guild_region := guild_region g;
     guild_afk_timeout := guild_afk_timeout g;
     guild_embed_enabled := guild_embed_enabled g;
     guild_verification_level := guild_verification_level g;
     guild_mfa_level := guild_mfa_level g; guild_features := guild_features g;
     guild_members := ms;
     guild_channels := guild_channels g; guild_roles := guild_roles g;
     guild_emojis := guild_emojis g; guild_voice_states := guild_voice_states g;
     guild_member_count := guild_member_count g;
     guild_synced := guild_synced g |}.

Definition set_synced (b : bool) (g : Guild) : Guild :=
  {| guild_id := guild_id g; guild_owner_id := guild_owner_id g;
     guild_afk_channel_id := guild_afk_channel_id g;
     guild_embed_channel_id := guild_embed_channel_id g;
     guild_name := guild_name g; guild_icon := guild_icon g;
     guild_splash := guild_splash g; guild_region := guild_region g;
     guild_afk_timeout := guild_afk_timeout g;
     guild_embed_enabled := guild_embed_enabled g;
     guild_verification_level := guild_verification_level g;
     guild_mfa_level := guild_mfa_level g; guild_features := guild_features g;
     guild_members := guild_members g;
     guild_channels := guild_channels g; guild_roles := guild_roles g;
     guild_emojis := guild_emojis g; guild_voice_states := guild_voice_states g;
     guild_member_count := guild_member_count g;
     guild_synced := b |}.

End Types.
Export Types.

(** Modelled from the spec: [disco.util.snowflake.to_snowflake] is not part
    of this source tree.  The operations of the spec take "a user id" or an
    entity ("role_or_id"): an id is returned as it is, an entity gives its
    [id]. *)
Class ToSnowflake (A : Type) : Type := to_snowflake : A -> snowflake.

#[export] Instance snowflake_to_snowflake : ToSnowflake snowflake := fun i => i.
#[export] Instance User_to_snowflake : ToSnowflake User := user_id.
#[export] Instance GuildMember_to_snowflake : ToSnowflake GuildMember := member_id.
#[export] Instance Role_to_snowflake : ToSnowflake Role := role_id.

(** ** The client: outbound calls and their outcomes *)

(** One constructor for each method of [self.client.api] that guild.py
    calls, and one for [self.client.gw.send]. *)
Inductive Call : Type :=
| guilds_members_get (guild user : snowflake)
| guilds_members_kick (guild user : snowflake)
| guilds_members_modify (guild user : snowflake) (kw : kwargs)
| guilds_roles_create (guild : snowflake)
| guilds_roles_delete (guild role : snowflake)
| guilds_roles_modify (guild role : snowflake) (kw : kwargs)
| guilds_bans_list (guild : snowflake)
| guilds_bans_delete (guild user : snowflake)
| guilds_bans_create (guild user : snowflake) (delete_message_days : Z)
| gw_send (op : OPCode) (data : kwargs).

(** What a call hands back to guild.py when it does not raise. *)
Definition reply_type (c : Call) : Type :=
  match c with
  | guilds_members_get _ _ => GuildMember
  | guilds_roles_create _ => Role
  | guilds_roles_modify _ _ _ => Role
  | guilds_bans_list _ => list User
  | _ => unit
  end.

(** The remote side is an external collaborator: its answer to a call is a
    function of the calls made so far and of the call itself, and is either
    a value or an exception. *)
Class Client : Type :=
  { reply : forall (history : list Call) (c : Call), Result (reply_type c) }.

(** ** Computations *)

(** A method body over an object store [S] (the object it may mutate):
    it reads and writes the store, appends to the log of calls, and returns
    or raises. *)
Definition Py (S A : Type) : Type := S * list Call -> Result A * (S * list Call).

Definition ret {S A} (a : A) : Py S A := fun st => (Return a, st).

Definition raise {S A} (e : Exn) : Py S A := fun st => (Raise e, st).

Definition bind {S A B} (m : Py S A) (k : A -> Py S B) : Py S B :=
  fun st =>
    match m st with
    | (Return a, st') => k a st'
    | (Raise e, st') => (Raise e, st')
    end.

Notation "x <- m ;; k" := (bind m (fun x => k))
  (at level 100, m at next level, right associativity).

Definition get_store {S} : Py S S := fun st => (Return (fst st), st).

Definition modify_store {S} (f : S -> S) : Py S unit :=
  fun st => (Return tt, (f (fst st), snd st)).

(** [self.client.api.<method>(...)] and [self.client.gw.send(...)]: the call
    is logged and the remote side decides its outcome. *)
Definition perform `{Client} {S} (c : Call) : Py S (reply_type c) :=
  fun st => (reply (snd st) c, (fst st, snd st ++ [c])).

(** [try: body except <the exceptions handler selects>: ...] *)
Definition try_except {S A} (body : Py S A) (handler : Exn -> option (Py S A)) : Py S A :=
  fun st =>
    match body st with
    | (Return a, st') => (Return a, st')
    | (Raise e, st') =>
        match handler e with
        | Some h => h st'
        | None => (Raise e, st')
        end
    end.

(** [o.attr] where [o] may be [None]: attribute access on [None] raises. *)
Definition getattr {S A B} (o : option A) (attr : A -> B) : Py S B :=
  match o with
  | Some a => ret (attr a)
  | None => raise AttributeError
  end.

(** [for x in xs: acc = body(acc, x)] *)
Fixpoint for_in {S A B} (xs : list A) (acc : B) (body : B -> A -> Py S B) : Py S B :=
  match xs with
  | [] => ret acc
  | x :: xs' => acc' <- body acc x ;; for_in xs' acc' body
  end.

(** Where a statement leaves a block: by falling through, or by [return]. *)
Inductive Flow (A : Type) : Type :=
| Fallthrough
| Returned (a : A).
Arguments Fallthrough {A}.
Arguments Returned {A} a.

(** [k in d] for a dictionary [d]. *)
Definition contains {K} `{Countable K} {V} (d : gmap K V) (k : K) : bool :=
  match d !! k with
  | Some _ => true
  | None => false
  end.

(** ** class Guild *)

(** Entities that carry a [guild_id] attribute. *)
Class GuildSubType (A : Type) : Type := {
  get_guild_id : A -> option snowflake;
  set_guild_id : option snowflake -> A -> A;
}.

#[export] Instance Channel_sub : GuildSubType Channel := {
  get_guild_id := channel_guild_id;
  set_guild_id v c := {| channel_id := channel_id c; channel_guild_id := v |};
}.

#[export] Instance VoiceState_sub : GuildSubType VoiceState := {
  get_guild_id := voice_guild_id;
  set_guild_id v s :=
    {| voice_session_id := voice_session_id s; voice_guild_id := v;
       voice_user_id := voice_user_id s |};
}.

#[export] Instance Emoji_sub : GuildSubType Emoji := {
  get_guild_id := emoji_guild_id;
  set_guild_id v e :=
    {| emoji_guild_id := v; emoji_id := emoji_id e; emoji_name := emoji_name e;
       emoji_require_colons := emoji_require_colons e;
       emoji_managed := emoji_managed e; emoji_roles := emoji_roles e |};
}.

#[export] Instance Role_sub : GuildSubType Role := {
  get_guild_id := role_guild_id;
  set_guild_id v r :=
    {| role_guild_id := v; role_id := role_id r; role_name := role_name r;
       role_hoist := role_hoist r; role_managed := role_managed r;
       role_color := role_color r; role_permissions := role_permissions r;
       role_position := role_position r; role_mentionable := role_mentionable r |};
}.

#[export] Instance GuildMember_sub : GuildSubType GuildMember := {
  get_guild_id := member_guild_id;
  set_guild_id v m :=
    {| member_user := member_user m; member_guild_id := v;
       member_nick := member_nick m; member_mute := member_mute m;
       member_deaf := member_deaf m; member_joined_at := member_joined_at m;
       member_roles := member_roles m |};
}.

(** Modelled from the spec: [SlottedModel.attach] ([disco.types.base]) is not
    part of this source tree.  Spec, Entity Attachment: "stamp each child
    with a fixed set of extra field values (currently guild_id)".  The
    children are the values of a dictionary; each is stamped where it
    stands. *)
Definition attach {K} `{Countable K} {A} `{GuildSubType A}
    (children : gmap K A) (guild_id : snowflake) : gmap K A :=
  set_guild_id (Some guild_id) <$> children.

(** [six.itervalues(d)]: the values of a dictionary in its iteration order.
    The order in which a dictionary is walked is not fixed by the code; the
    order of [map_to_list] stands for it, and nothing proved below depends
    on which order it is. *)
Definition itervalues {K} `{Countable K} {V} (d : gmap K V) : list V :=
  (map_to_list d).*2.

Module Guild.
Section methods.
Context `{Client} `{Permissions}.

(** [Guild.__init__]: [loaded] is the object as [super().__init__] leaves
    it, with every declared field read from the snapshot. *)
Definition __init__ (loaded : Guild) : Guild :=
  let self := loaded in
  {| guild_id := guild_id self; guild_owner_id := guild_owner_id self;
     guild_afk_channel_id := guild_afk_channel_id self;
     guild_embed_channel_id := guild_embed_channel_id self;
     guild_name := guild_name self; guild_icon := guild_icon self;
     guild_splash := guild_splash self; guild_region := guild_region self;
     guild_afk_timeout := guild_afk_timeout self;
     guild_embed_enabled := guild_embed_enabled self;
     guild_verification_level := guild_verification_level self;
     guild_mfa_level := guild_mfa_level self;
     guild_features := guild_features self;
     guild_members := attach (guild_members self) (guild_id self);
     guild_channels := attach (guild_channels self) (guild_id self);
     guild_roles := attach (guild_roles self) (guild_id self);
     guild_emojis := attach (guild_emojis self) (guild_id self);
     guild_voice_states := attach (guild_voice_states self) (guild_id self);
     guild_member_count := guild_member_count self;
     guild_synced := guild_synced self |}.

(** [get_member]: on a miss the fetched member is assigned to
    [self.members[user]]; [except APIException: return] leaves the method
    with [None]; the last line is [return self.members.get(user)]. *)
Definition get_member {U} `{ToSnowflake U} (user : U)
    : Py Guild (option GuildMember) :=
  let user := to_snowflake user in
  self <- get_store ;;
  flow <- (if negb (contains (guild_members self) user) then
             try_except
               (fetched <- perform (guilds_members_get (guild_id self) user) ;;
                _ <- modify_store
                       (fun self => set_members (<[user := fetched]> (guild_members self)) self) ;;
                ret Fallthrough)
               (fun e => match e with
                         | APIException => Some (ret (Returned None))
                         | _ => None
                         end)
           else ret Fallthrough) ;;
  match flow with
  | Returned v => ret v
  | Fallthrough => self <- get_store ;; ret (guild_members self !! user)
  end.

(** [get_permissions]: the owner test comes first; then the member is
    resolved with [self.get_member(user)], the accumulator starts from
    [PermissionValue(self.roles.get(self.id).permissions)] and
    [for role in map(self.roles.get, member.roles): value += role.permissions]
    runs over the member's role ids. *)
Definition get_permissions (user : User) : Py Guild PermissionValue :=
  self <- get_store ;;
  if guild_owner_id self =? user_id user then
    ret (PermissionValue_new ADMINISTRATOR)
  else
    member <- get_member user ;;
    self <- get_store ;;
    everyone <- getattr (guild_roles self !! guild_id self) role_permissions ;;
    let value := PermissionValue_new (value everyone) in
    role_ids <- getattr member member_roles ;;
    for_in (map (fun r => guild_roles self !! r) role_ids) value
      (fun value role =>
         granted <- getattr role role_permissions ;;
         ret (iadd value granted)).

Definition create_role : Py Guild Role :=
  self <- get_store ;;
  perform (guilds_roles_create (guild_id self)).

Definition delete_role {R} `{ToSnowflake R} (role : R) : Py Guild unit :=
  self <- get_store ;;
  perform (guilds_roles_delete (guild_id self) (to_snowflake role)).

(** [update_role]: the keyword dictionary is written as the source lists it. *)
Definition update_role (role : Role) : Py Guild Role :=
  self <- get_store ;;
  perform (guilds_roles_modify (guild_id self) (role_id role)
    [ ("name", PyStr (role_name role));
      ("permissions", PyInt (value (role_permissions role)));
      ("position", PyInt (role_position role));
      ("color", PyInt (role_color role));
      ("hoist", PyBool (role_hoist role));
      ("mentionable", PyBool (role_mentionable role)) ]%string).

(** [sync]: [if self.synced: return], then the flag is set before the
    gateway is called. *)
Definition sync : Py Guild unit :=
  self <- get_store ;;
  if guild_synced self then ret tt
  else
    _ <- modify_store (set_synced true) ;;
    self <- get_store ;;
    perform (gw_send REQUEST_GUILD_MEMBERS
      [ ("guild_id", PyInt (guild_id self));
        ("query", PyStr "");
        ("limit", PyInt 0) ]%string).

Definition get_bans : Py Guild (list User) :=
  self <- get_store ;;
  perform (guilds_bans_list (guild_id self)).

Definition delete_ban {U} `{ToSnowflake U} (user : U) : Py Guild unit :=
  self <- get_store ;;
  perform (guilds_bans_delete (guild_id self) (to_snowflake user)).

Definition create_ban {U} `{ToSnowflake U} (user : U) (delete_message_days : Z)
    : Py Guild unit :=
  self <- get_store ;;
  perform (guilds_bans_create (guild_id self) (to_snowflake user) delete_message_days).

(** [get_voice_state]: the first voice state met whose [user_id] is the
    user's id is returned; when the loop ends without one the method
    returns [None]. *)
Definition get_voice_state {U} `{ToSnowflake U} (user : U)
    : Py Guild (option VoiceState) :=
  let user := to_snowflake user in
  self <- get_store ;;
  ret (List.find (fun state => voice_user_id state =? user)
         (itervalues (guild_voice_states self))).

End methods.
End Guild.

(** ** class GuildSubType, class GuildMember, class Role *)

(** The object store of the child entities' methods is
    [self.client.state.guilds], the registry of guilds by id. *)
Abbreviation Registry := (gmap snowflake Guild).

(** [GuildSubType.guild], a cached property.  This is its body,
    [self.client.state.guilds.get(self.guild_id)]: what the property gives
    when it is read on an instance for the first time.  [GuildMember] and
    [Role] below give the methods as they run on such an instance; the
    storage of the property, and the methods on an instance that has read
    it before, are under [Stored]. *)
Definition GuildSubType_guild {A} `{GuildSubType A} (self : A)
    : Py Registry (option Guild) :=
  guilds <- get_store ;;
  ret (match get_guild_id self with
       | Some gid => guilds !! gid
       | None => None
       end).

(** [self.guild.<method>(...)] where [self.guild] is read for the first
    time: the method runs on the guild object that the registry holds; on
    [None] the attribute lookup raises. *)
Definition on_guild {A B} `{GuildSubType A} (self : A) (method : Py Guild B)
    : Py Registry B :=
  fun st =>
    match get_guild_id self with
    | None => (Raise AttributeError, st)
    | Some gid =>
        match fst st !! gid with
        | None => (Raise AttributeError, st)
        | Some g =>
            match method (g, snd st) with
            | (r, (g', log)) => (r, (<[gid := g']> (fst st), log))
            end
        end
    end.

(** Truth value of an optional string: [None] and [''] are false. *)
Definition truthy (v : option string) : bool :=
  match v with
  | None => false
  | Some s => negb (String.eqb s "")
  end.

(** [v or default] *)
Definition py_or (v : option string) (default : string) : string :=
  match v with
  | Some s => if truthy v then s else default
  | None => default
  end.

Module GuildMember.
Section methods.
Context `{Client}.

Definition kick (self : GuildMember) : Py Registry unit :=
  g <- GuildSubType_guild self ;;
  gid <- getattr g guild_id ;;
  perform (guilds_members_kick gid (user_id (member_user self))).

Definition ban (self : GuildMember) (delete_message_days : Z) : Py Registry unit :=
  on_guild self (Guild.create_ban self delete_message_days).

Definition set_nickname (self : GuildMember) (nickname : option string)
    : Py Registry unit :=
  g <- GuildSubType_guild self ;;
  gid <- getattr g guild_id ;;
  perform (guilds_members_modify gid (user_id (member_user self))
    [ ("nick", PyStr (py_or nickname "")) ]%string).

Definition add_role (self : GuildMember) (role : Role) : Py Registry unit :=
  let roles := member_roles self ++ [role_id role] in
  g <- GuildSubType_guild self ;;
  gid <- getattr g guild_id ;;
  perform (guilds_members_modify gid (user_id (member_user self))
    [ ("roles", PyList roles) ]%string).

End methods.
End GuildMember.

Module Role.
Section methods.
Context `{Client}.

Definition delete (self : Role) : Py Registry unit :=
  _ <- on_guild self (Guild.delete_role self) ;;
  ret tt.

Definition save (self : Role) : Py Registry unit :=
  _ <- on_guild self (Guild.update_role self) ;;
  ret tt.

(** ['<@{}>'.format(self.id)]: the id is written in decimal. *)
Definition mention (self : Role) : string :=
  "<@" +:+ pretty (role_id self) +:+ ">".

End methods.
End Role.

(** ** Cached properties and the instances that store them *)

(** A guild object is known to its children by reference: the object a
    child has stored may have left the registry, and may have changed since
    it was stored. *)
Definition ref : Type := positive.

(** What the methods of one child entity reach: the guild objects, the
    registry [self.client.state.guilds] from ids to guild objects, and the
    entity's own storage for its cached properties [guild] and [owner],
    each empty until the property has been read. *)
Record Heap : Type := {
  guild_objects : gmap ref Guild;
  state_guilds : gmap snowflake ref;
  stored_guild : option (option ref);
  stored_owner : option bool;
}.

Definition set_guild_objects (objects : gmap ref Guild) (h : Heap) : Heap :=
  {| guild_objects := objects; state_guilds := state_guilds h;
     stored_guild := stored_guild h; stored_owner := stored_owner h |}.

Definition set_stored_guild (v : option (option ref)) (h : Heap) : Heap :=
  {| guild_objects := guild_objects h; state_guilds := state_guilds h;
     stored_guild := v; stored_owner := stored_owner h |}.

Definition set_stored_owner (v : option bool) (h : Heap) : Heap :=
  {| guild_objects := guild_objects h; state_guilds := state_guilds h;
     stored_guild := stored_guild h; stored_owner := v |}.

(** Modelled from the spec: the decorator [cached_property]
    ([disco.util.functional]) is not part of this source tree: "a value
    computed once from immutable inputs and memoized per instance".  A read
    gives the stored value when there is one; otherwise the body runs and
    the value it returns is stored before it is handed back (a body that
    raises stores nothing). *)
Definition cached_property {S A} (stored : S -> option A) (store : A -> S -> S)
    (body : Py S A) : Py S A :=
  st <- get_store ;;
  match stored st with
  | Some value => ret value
  | None =>
      value <- body ;;
      _ <- modify_store (store value) ;;
      ret value
  end.

(** The guild that [self.guild] gives on heap [h]: the stored one, or on a
    first read the registry's guild for [self.guild_id]. *)
Definition guild_of {A} `{GuildSubType A} (self : A) (h : Heap) : option ref :=
  match stored_guild h with
  | Some stored => stored
  | None =>
      match get_guild_id self with
      | Some gid => state_guilds h !! gid
      | None => None
      end
  end.

(** The registry as an instance sees it that reads [guild] for the first
    time: each id with the present state of its guild object. *)
Definition first_read_registry (h : Heap) : gmap snowflake Guild :=
  omap (fun l => guild_objects h !! l) (state_guilds h).

(** An outcome that is an [AttributeError] raised before any call was made,
    with the guild objects and the registry as they were. *)
Definition fails_before_any_call {B} (h : Heap) (log : list Call)
    (outcome : Result B * (Heap * list Call)) : Prop :=
  fst outcome = Raise AttributeError /\
  snd (snd outcome) = log /\
  guild_objects (fst (snd outcome)) = guild_objects h /\
  state_guilds (fst (snd outcome)) = state_guilds h.

(** Every reference in the registry is to an object of the heap. *)
Definition registry_allocated (h : Heap) : Prop :=
  forall gid l, state_guilds h !! gid = Some l -> is_Some (guild_objects h !! l).

Module Stored.
Section methods.
Context `{Client}.

(** [GuildSubType.guild] with its storage. *)
Definition guild {A} `{GuildSubType A} (self : A) : Py Heap (option ref) :=
  cached_property stored_guild (fun v => set_stored_guild (Some v))
    (h <- get_store ;;
     ret (match get_guild_id self with
          | Some gid => state_guilds h !! gid
          | None => None
          end)).

(** The object behind a reference.  The registry and the storage keep the
    objects they refer to alive, so a reference is always to an object of
    the heap; a reference to none is an error of the model, not of the
    code. *)
Definition object_at (l : ref) : Py Heap Guild :=
  h <- get_store ;;
  match guild_objects h !! l with
  | Some g => ret g
  | None => raise (OtherException "no object behind the reference")
  end.

(** [self.guild.<attribute>] *)
Definition guild_attr {A B} `{GuildSubType A} (self : A) (attr : Guild -> B)
    : Py Heap B :=
  r <- guild self ;;
  match r with
  | None => raise AttributeError
  | Some l => g <- object_at l ;; ret (attr g)
  end.

(** [self.guild.<method>(...)]: the method runs on the guild object, which
    keeps what the method does to it. *)
Definition guild_call {A B} `{GuildSubType A} (self : A) (method : Py Guild B)
    : Py Heap B :=
  r <- guild self ;;
  match r with
  | None => raise AttributeError
  | Some l =>
      g <- object_at l ;;
      fun st =>
        match method (g, snd st) with
        | (result, (g', log)) =>
            (result, (set_guild_objects (<[l := g']> (guild_objects (fst st))) (fst st), log))
        end
  end.

Definition get_voice_state (self : GuildMember) : Py Heap (option VoiceState) :=
  guild_call self (Guild.get_voice_state self).

Definition kick (self : GuildMember) : Py Heap unit :=
  gid <- guild_attr self guild_id ;;
  perform (guilds_members_kick gid (user_id (member_user self))).

Definition ban (self : GuildMember) (delete_message_days : Z) : Py Heap unit :=
  guild_call self (Guild.create_ban self delete_message_days).

Definition set_nickname (self : GuildMember) (nickname : option string)
    : Py Heap unit :=
  gid <- guild_attr self guild_id ;;
  perform (guilds_members_modify gid (user_id (member_user self))
    [ ("nick", PyStr (py_or nickname "")) ]%string).

Definition add_role (self : GuildMember) (role : Role) : Py Heap unit :=
  let roles := member_roles self ++ [role_id role] in
  gid <- guild_attr self guild_id ;;
  perform (guilds_members_modify gid (user_id (member_user self))
    [ ("roles", PyList roles) ]%string).

(** [GuildMember.owner] with its storage. *)
Definition owner (self : GuildMember) : Py Heap bool :=
  cached_property stored_owner (fun v => set_stored_owner (Some v))
    (owner_id <- guild_attr self guild_owner_id ;;
     ret (owner_id =? member_id self)).

End methods.
End Stored.

(** ** Sequences of calls on one guild object *)

(** A caller's invocation of a method of [Guild]. *)
Inductive Invocation : Type :=
| call_get_member (user : snowflake)
| call_get_permissions (user : User)
| call_create_role
| call_delete_role (role : snowflake)
| call_update_role (role : Role)
| call_sync
| call_get_bans
| call_delete_ban (user : snowflake)
| call_create_ban (user : snowflake) (delete_message_days : Z).

Section sequences.
Context `{Client} `{Permissions}.

(** The guild object and the log after one invocation, whether it
    returned or raised. *)
Definition invoke (i : Invocation) (st : Guild * list Call) : Guild * list Call :=
  match i with
  | call_get_member u => snd (Guild.get_member u st)
  | call_get_permissions u => snd (Guild.get_permissions u st)
  | call_create_role => snd (Guild.create_role st)
  | call_delete_role r => snd (Guild.delete_role r st)
  | call_update_role r => snd (Guild.update_role r st)
  | call_sync => snd (Guild.sync st)
  | call_get_bans => snd (Guild.get_bans st)
  | call_delete_ban u => snd (Guild.delete_ban u st)
  | call_create_ban u d => snd (Guild.create_ban u d st)
  end.

Definition invoke_all (invocations : list Invocation) (st : Guild * list Call)
    : Guild * list Call :=
  fold_left (fun st i => invoke i st) invocations st.

End sequences.

(** The "request full member list" signals in a log. *)
Definition is_member_request (c : Call) : bool :=
  match c with
  | gw_send REQUEST_GUILD_MEMBERS _ => true
  | _ => false
  end.

Definition member_requests (log : list Call) : list Call :=
  List.filter is_member_request log.

(** The signal that [sync] sends for guild [g]. *)
Definition member_request (g : Guild) : Call :=
  gw_send REQUEST_GUILD_MEMBERS
    [ ("guild_id", PyInt (guild_id g)); ("query", PyStr ""); ("limit", PyInt 0) ]%string.

(** [st'] differs from [st] neither in the [synced] flag nor in the member
    requests sent. *)
Definition quiet (st st' : Guild * list Call) : Prop :=
  guild_synced (fst st') = guild_synced (fst st) /\
  member_requests (snd st') = member_requests (snd st).

(** [st'] comes from [st] by filling the member cache, setting [synced]
    and making at most [n] calls; nothing else differs. *)
Definition grown_by (n : nat) (st st' : Guild * list Call) : Prop :=
  fst st' = set_synced (guild_synced (fst st'))
              (set_members (guild_members (fst st')) (fst st)) /\
  guild_members (fst st) ⊆ guild_members (fst st') /\
  (guild_synced (fst st) = true -> guild_synced (fst st') = true) /\
  exists extra, snd st' = snd st ++ extra /\ (length extra <= n)%nat.

(** Lookup of a keyword argument. *)
Fixpoint kwarg (name : string) (kw : kwargs) : option PyVal :=
  match kw with
  | [] => None
  | (k, v) :: kw' => if String.eqb k name then Some v else kwarg name kw'
  end.

(** Every member in the member map carries the guild's id. *)
Definition members_attached (g : Guild) : Prop :=
  forall k m, guild_members g !! k = Some m -> member_guild_id m = Some (guild_id g).

(** ** Scenarios

    The guild of the spec's scenarios: id 1, owner 9, an everyone-role
    (id 1) granting READ and a role 5 granting WRITE. *)

Definition READ : Z := 1024.
Definition WRITE : Z := 2048.

(** A registry in which the administrator bit is bit 3. *)
Definition discord_permissions : Permissions := {| ADMINISTRATOR := 8 |}.

Definition a_role (id perms : Z) : Role :=
  {| role_guild_id := None; role_id := id; role_name := "role";
     role_hoist := false; role_managed := false; role_color := 0;
     role_permissions := PermissionValue_new perms; role_position := 0;
     role_mentionable := false |}.

Definition a_member (guild : option snowflake) (id : Z) (roles : list snowflake)
    : GuildMember :=
  {| member_user := {| user_id := id |}; member_guild_id := guild;
     member_nick := None; member_mute := false; member_deaf := false;
     member_joined_at := ""; member_roles := roles |}.

Definition a_guild (members : gmap snowflake GuildMember) : Guild :=
  {| guild_id := 1; guild_owner_id := 9;
     guild_afk_channel_id := 0; guild_embed_channel_id := 0;
     guild_name := "guild"; guild_icon := ""; guild_splash := "";
     guild_region := ""; guild_afk_timeout := 0; guild_embed_enabled := false;
     guild_verification_level := NONE; guild_mfa_level := 0;
     guild_features := [];
     guild_members := members;
     guild_channels := {[ 20 := {| channel_id := 20; channel_guild_id := None |} ]};
     guild_roles := {[ 1 := a_role 1 READ; 5 := a_role 5 WRITE ]};
     guild_emojis :=
       {[ 30 := {| emoji_guild_id := None; emoji_id := 30; emoji_name := "wave";
                   emoji_require_colons := true; emoji_managed := false;
                   emoji_roles := [] |} ]};
     guild_voice_states :=
       {[ "s1"%string := {| voice_session_id := "s1"; voice_guild_id := None;
                            voice_user_id := 3 |} ]};
     guild_member_count := 2;
     guild_synced := false |}.

(** Members 9 (the owner, no roles) and 3 (role 5), as a snapshot loads
    them and as construction leaves them. *)
Definition loaded_guild : Guild :=
  a_guild {[ 9 := a_member None 9 []; 3 := a_member None 3 [5] ]}.

Definition scenario_guild : Guild := Guild.__init__ loaded_guild.

(** [client.state.guilds] holding that guild. *)
Definition scenario_registry : gmap snowflake Guild := {[ 1 := scenario_guild ]}.

(** Member 3 also lists role 7, which the role map does not hold. *)
Definition stale_guild : Guild :=
  a_guild {[ 9 := a_member (Some 1) 9 []; 3 := a_member (Some 1) 3 [5; 7] ]}.

(** Members 9 and 3 cached, but an empty role map: not even the
    everyone-role. *)
Definition bare_guild : Guild :=
  {| guild_id := 1; guild_owner_id := 9;
     guild_afk_channel_id := 0; guild_embed_channel_id := 0;
     guild_name := "guild"; guild_icon := ""; guild_splash := "";
     guild_region := ""; guild_afk_timeout := 0; guild_embed_enabled := false;
     guild_verification_level := NONE; guild_mfa_level := 0;
     guild_features := [];
     guild_members := {[ 9 := a_member (Some 1) 9 []; 3 := a_member (Some 1) 3 [5] ]};
     guild_channels := ∅; guild_roles := ∅; guild_emojis := ∅;
     guild_voice_states := ∅;
     guild_member_count := 2;
     guild_synced := false |}.

(** A heap with the scenario guild as object 1, registered under id 1,
    and an instance that has read none of its cached properties. *)
Definition scenario_heap : Heap :=
  {| guild_objects := {[ 1%positive := scenario_guild ]};
     state_guilds := {[ 1 := 1%positive ]};
     stored_guild := None; stored_owner := None |}.

(** The instance has read [guild] while the scenario guild was registered;
    the guild has since left the registry. *)
Definition detached_heap : Heap :=
  {| guild_objects := {[ 1%positive := scenario_guild ]};
     state_guilds := ∅;
     stored_guild := Some (Some 1%positive); stored_owner := None |}.

(** The member cache holds the owner only. *)
Definition owner_only_guild : Guild :=
  Guild.__init__ (a_guild {[ 9 := a_member None 9 [] ]}).

(** A remote side that knows every user as a member with role 5 and, as
    the code receives it, no guild id; and one that knows no member. *)
Definition generous_reply (history : list Call) (c : Call) : Result (reply_type c) :=
  match c return Result (reply_type c) with
  | guilds_members_get _ user => Return (a_member None user [5])
  | guilds_members_kick _ _ => Return tt
  | guilds_members_modify _ _ _ => Return tt
  | guilds_roles_create _ => Return (a_role 6 0)
  | guilds_roles_delete _ _ => Return tt
  | guilds_roles_modify _ role _ => Return (a_role role 0)
  | guilds_bans_list _ => Return []
  | guilds_bans_delete _ _ => Return tt
  | guilds_bans_create _ _ _ => Return tt
  | gw_send _ _ => Return tt
  end.

Definition failing_reply (history : list Call) (c : Call) : Result (reply_type c) :=
  Raise APIException.

Definition generous_client : Client := {| reply := generous_reply |}.
Definition failing_client : Client := {| reply := failing_reply |}.

(** ** Stepping lemmas *)

(** The body of the loop of [get_permissions]. *)
Local Abbreviation grant :=
  (fun value role => granted <- getattr role role_permissions ;; ret (iadd value granted)).

(** What [get_permissions] does once the member is resolved. *)
Local Abbreviation resolve_from member :=
  (self <- get_store ;;
   everyone <- getattr (guild_roles self !! guild_id self) role_permissions ;;
   role_ids <- getattr member member_roles ;;
   for_in (map (fun r => guild_roles self !! r) role_ids)
     (PermissionValue_new (value everyone)) grant).

Section stepping.
Context `{Client} `{Permissions}.

Lemma get_member_hit {U} {conv : ToSnowflake U} (user : U) g log m :
  guild_members g !! to_snowflake user = Some m ->
  Guild.get_member user (g, log) = (Return (Some m), (g, log)).
Proof.
  intros Hm. unfold Guild.get_member, bind, get_store, contains; simpl.
  rewrite Hm; simpl. now rewrite Hm.
Qed.

Lemma get_member_miss_fetched {U} {conv : ToSnowflake U} (user : U) g log m :
  guild_members g !! to_snowflake user = None ->
  reply log (guilds_members_get (guild_id g) (to_snowflake user)) = Return m ->
  Guild.get_member user (g, log)
  = (Return (Some m),
     (set_members (<[to_snowflake user := m]> (guild_members g)) g,
      log ++ [guilds_members_get (guild_id g) (to_snowflake user)])).
Proof.
  intros Hm Hr.
  unfold Guild.get_member, bind, get_store, contains, try_except, perform,
    modify_store; simpl.
  rewrite Hm; simpl. rewrite Hr; simpl.
  now rewrite lookup_insert_eq.
Qed.

Lemma get_member_miss_raised {U} {conv : ToSnowflake U} (user : U) g log e :
  guild_members g !! to_snowflake user = None ->
  reply log (guilds_members_get (guild_id g) (to_snowflake user)) = Raise e ->
  Guild.get_member user (g, log)
  = (match e with APIException => Return None | _ => Raise e end,
     (g, log ++ [guilds_members_get (guild_id g) (to_snowflake user)])).
Proof.
  intros Hm Hr.
  unfold Guild.get_member, bind, get_store, contains, try_except, perform,
    modify_store; simpl.
  rewrite Hm; simpl. rewrite Hr; simpl.
  destruct e; reflexivity.
Qed.


Lemma get_permissions_non_owner (user : User) g log :
  guild_owner_id g <> user_id user ->
  Guild.get_permissions user (g, log)
  = match Guild.get_member user (g, log) with
    | (Return member, st') => resolve_from member st'
    | (Raise e, st') => (Raise e, st')
    end.
Proof.
  intros Hne. unfold Guild.get_permissions at 1.
  unfold bind at 1, get_store at 1; simpl.
  apply Z.eqb_neq in Hne. rewrite Hne. reflexivity.
Qed.

(** The loop of [get_permissions] over role ids that all resolve. *)
Lemma accumulate_resolved {S} (g : Guild) (ids : list snowflake) acc
    (st : S * list Call) :
  (forall rid, rid ∈ ids -> is_Some (guild_roles g !! rid)) ->
  exists v,
    for_in (map (fun r => guild_roles g !! r) ids) acc grant st = (Return v, st) /\
    forall n, Z.testbit (value v) n = true <->
      Z.testbit (value acc) n = true \/
      exists rid r, rid ∈ ids /\ guild_roles g !! rid = Some r /\
                    Z.testbit (value (role_permissions r)) n = true.
Proof.
  revert acc. induction ids as [|rid ids IH]; intros acc Hres.
  - exists acc. split; [reflexivity|].
    intros n. split; [tauto|]. intros [Hn|(rid & r & Hin & _)]; [exact Hn|].
    inversion Hin.
  - destruct (Hres rid) as [r Hr]; [left|].
    destruct (IH (iadd acc (role_permissions r))) as (v & Hrun & Hbits).
    { intros rid' Hin. apply Hres. now right. }
    exists v. split.
    + simpl. unfold bind at 1. rewrite Hr. simpl. exact Hrun.
    + intros n. rewrite Hbits. simpl. rewrite Z.lor_spec, orb_true_iff.
      split.
      * intros [[Hn|Hn]|(rid' & r' & Hin & Hr' & Hn)].
        -- now left.
        -- right. exists rid, r. split; [left|]. now split.
        -- right. exists rid', r'. split; [now right|]. now split.
      * intros [Hn|(rid' & r' & Hin & Hr' & Hn)]; [left; now left|].
        apply elem_of_cons in Hin as [->|Hin].
        -- left. right. congruence.
        -- right. exists rid', r'. now repeat split.
Qed.

(** The loop raises at the first role id that does not resolve. *)
Lemma accumulate_stale {S} (g : Guild) (ids : list snowflake) acc
    (st : S * list Call) rid :
  rid ∈ ids -> guild_roles g !! rid = None ->
  for_in (map (fun r => guild_roles g !! r) ids) acc grant st
  = (Raise AttributeError, st).
Proof.
  revert acc. induction ids as [|rid' ids IH]; intros acc Hin Hnone.
  - inversion Hin.
  - simpl. unfold bind at 1.
    destruct (guild_roles g !! rid') as [r|] eqn:Hr; simpl.
    + apply IH; [|exact Hnone].
      apply elem_of_cons in Hin as [->|Hin]; [congruence|exact Hin].
    + reflexivity.
Qed.

(** The loop neither mutates the guild nor calls the remote side. *)
Lemma accumulate_pure {S} (roles : list (option Role)) acc (st : S * list Call) :
  snd (for_in roles acc grant st) = st.
Proof.
  revert acc. induction roles as [|[r|] roles IH]; intros acc; simpl.
  - reflexivity.
  - unfold bind at 1; simpl. apply IH.
  - reflexivity.
Qed.

Lemma resolve_from_pure (member : option GuildMember) (st : Guild * list Call) :
  snd (resolve_from member st) = st.
Proof.
  destruct st as [g log]. unfold bind at 1, get_store at 1; simpl.
  unfold bind at 1.
  destruct (guild_roles g !! guild_id g) as [everyone|]; simpl; [|reflexivity].
  unfold bind at 1.
  destruct member as [m|]; simpl; [|reflexivity].
  apply accumulate_pure.
Qed.

Lemma resolve_from_None (st : Guild * list Call) :
  resolve_from (@None GuildMember) st = (Raise AttributeError, st).
Proof.
  destruct st as [g log]. unfold bind at 1, get_store at 1; simpl.
  unfold bind at 1.
  destruct (guild_roles g !! guild_id g) as [everyone|]; reflexivity.
Qed.

End stepping.

(** ** Permission resolution *)

Section permissions.
Context `{Client} `{Permissions}.

(** X6: for a non-owner cached member, a listed role id that is not in
    the role map makes [get_permissions] raise [AttributeError]
    ([self.roles.get] gives [None] and [role.permissions] is read from
    it); the guild and the log are untouched. *)
Lemma get_permissions_stale_raises (user : User) g log m everyone rid :
  guild_owner_id g <> user_id user ->
  guild_members g !! user_id user = Some m ->
  guild_roles g !! guild_id g = Some everyone ->
  rid ∈ member_roles m -> guild_roles g !! rid = None ->
  Guild.get_permissions user (g, log) = (Raise AttributeError, (g, log)).
Proof.
  intros Hne Hm Hev Hin Hnone.
  rewrite get_permissions_non_owner by exact Hne.
  rewrite (get_member_hit (conv := User_to_snowflake) user g log m Hm).
  unfold bind at 1, get_store at 1; simpl.
  unfold bind at 1. rewrite Hev; simpl.
  unfold bind at 1; simpl.
  now apply accumulate_stale with (rid := rid).
Qed.

(** C1 (amended): for a non-owner user whose cached member lists role ids
    that all resolve in the role map, [get_permissions] returns, without
    touching the guild or the remote side, the bitset union of the
    everyone-role's permissions (the role whose id is the guild's id) and
    the permissions of every listed role: a bit is set in the result
    exactly when it is set in the everyone-role or in one of the member's
    roles. *)
Theorem get_permissions_union (user : User) g log m everyone :
  guild_owner_id g <> user_id user ->
  guild_members g !! user_id user = Some m ->
  guild_roles g !! guild_id g = Some everyone ->
  (forall rid, rid ∈ member_roles m -> is_Some (guild_roles g !! rid)) ->
  exists v,
    Guild.get_permissions user (g, log) = (Return v, (g, log)) /\
    forall n, Z.testbit (value v) n = true <->
      Z.testbit (value (role_permissions everyone)) n = true \/
      exists rid r, rid ∈ member_roles m /\ guild_roles g !! rid = Some r /\
                    Z.testbit (value (role_permissions r)) n = true.
Proof.
  intros Hne Hm Hev Hres.
  rewrite get_permissions_non_owner by exact Hne.
  rewrite (get_member_hit (conv := User_to_snowflake) user g log m Hm).
  unfold bind at 1, get_store at 1; simpl.
  unfold bind at 1. rewrite Hev; simpl.
  unfold bind at 1; simpl.
  apply (accumulate_resolved g (member_roles m)
           (PermissionValue_new (value (role_permissions everyone))) (g, log) Hres).
Qed.

(** C2: for a user whose id is the guild's [owner_id], [get_permissions]
    returns the administrator bitset at once: whatever the role map and
    the member cache hold, nothing is looked up, nothing is fetched and
    the guild is left as it was. *)
Theorem get_permissions_owner (user : User) g log :
  guild_owner_id g = user_id user ->
  Guild.get_permissions user (g, log)
  = (Return (PermissionValue_new ADMINISTRATOR), (g, log)).
Proof.
  intros Hown. unfold Guild.get_permissions, bind at 1, get_store at 1; simpl.
  now rewrite Hown, Z.eqb_refl.
Qed.

(** C4 (amended): for a non-owner user who is present in the member
    cache, [get_permissions] performs no remote fetch and leaves the guild
    (its member map included) unchanged.  For a non-owner user who is
    absent from the cache it goes through [get_member]: exactly one fetch
    is made; a fetched member is inserted into the member map; and when
    the fetch fails with an API error the call raises instead of
    returning a permission value. *)
Theorem get_permissions_member_lookup (user : User) g log :
  guild_owner_id g <> user_id user ->
  (forall m, guild_members g !! user_id user = Some m ->
     snd (Guild.get_permissions user (g, log)) = (g, log)) /\
  (guild_members g !! user_id user = None ->
     let fetch := guilds_members_get (guild_id g) (user_id user) in
     snd (snd (Guild.get_permissions user (g, log))) = log ++ [fetch] /\
     match reply log fetch with
     | Return m =>
         fst (snd (Guild.get_permissions user (g, log)))
         = set_members (<[user_id user := m]> (guild_members g)) g
     | Raise APIException =>
         Guild.get_permissions user (g, log)
         = (Raise AttributeError, (g, log ++ [fetch]))
     | Raise e =>
         Guild.get_permissions user (g, log) = (Raise e, (g, log ++ [fetch]))
     end).
Proof.
  intros Hne. split.
  - intros m Hm. rewrite get_permissions_non_owner by exact Hne.
    rewrite (get_member_hit (conv := User_to_snowflake) user g log m Hm).
    apply resolve_from_pure.
  - intros Hm fetch. rewrite get_permissions_non_owner by exact Hne.
    destruct (reply log fetch) as [m|e] eqn:Hr.
    + rewrite (get_member_miss_fetched (conv := User_to_snowflake) user g log m Hm Hr).
      rewrite resolve_from_pure. split; reflexivity.
    + rewrite (get_member_miss_raised (conv := User_to_snowflake) user g log e Hm Hr).
      destruct e; try (split; reflexivity).
      rewrite resolve_from_None. split; reflexivity.
Qed.

End permissions.

(** ** The member cache *)

Section member_cache.
Context `{Client}.

(** C3: on a cache miss [get_member] makes exactly one remote fetch.  A
    fetched member is inserted into the member map under the requested id
    and returned, and a later call for that id is answered from the cache
    with no remote call.  When the fetch raises [APIException] the result
    is [None], the guild (its member map included) is unchanged, and a
    later call for the same id fetches again.  Any other exception
    propagates. *)
Theorem get_member_miss {U} {conv : ToSnowflake U} (user : U) g log :
  guild_members g !! to_snowflake user = None ->
  let fetch := guilds_members_get (guild_id g) (to_snowflake user) in
  match reply log fetch with
  | Return m =>
      let g' := set_members (<[to_snowflake user := m]> (guild_members g)) g in
      Guild.get_member user (g, log) = (Return (Some m), (g', log ++ [fetch])) /\
      forall log', Guild.get_member user (g', log') = (Return (Some m), (g', log'))
  | Raise APIException =>
      Guild.get_member user (g, log) = (Return None, (g, log ++ [fetch])) /\
      snd (snd (Guild.get_member user (g, log ++ [fetch])))
      = (log ++ [fetch]) ++ [fetch]
  | Raise e =>
      Guild.get_member user (g, log) = (Raise e, (g, log ++ [fetch]))
  end.
Proof.
  intros Hm fetch.
  destruct (reply log fetch) as [m|e] eqn:Hr.
  - split.
    + exact (get_member_miss_fetched user g log m Hm Hr).
    + intros log'. apply get_member_hit. simpl. apply lookup_insert_eq.
  - pose proof (get_member_miss_raised user g log e Hm Hr) as E.
    destruct e; try exact E.
    split; [exact E|].
    destruct (reply (log ++ [fetch]) fetch) as [m|e] eqn:Hr'.
    + now rewrite (get_member_miss_fetched user g _ m Hm Hr').
    + now rewrite (get_member_miss_raised user g _ e Hm Hr').
Qed.

End member_cache.

(** ** Construction *)

Lemma attach_lookup {K} `{Countable K} {A} `{GuildSubType A}
    (children : gmap K A) (gid : snowflake) (k : K) (c : A) :
  (forall v a, get_guild_id (set_guild_id v a) = v) ->
  attach children gid !! k = Some c -> get_guild_id c = Some gid.
Proof.
  intros Hlaw. unfold attach. rewrite lookup_fmap.
  destruct (children !! k) as [c0|]; simpl; [|discriminate].
  intros [= <-]. apply Hlaw.
Qed.

Lemma init_members_attached (loaded : Guild) :
  members_attached (Guild.__init__ loaded).
Proof.
  intros k m Hk. simpl in Hk.
  exact (attach_lookup (guild_members loaded) (guild_id loaded) k m
           (fun _ _ => eq_refl) Hk).
Qed.

Lemma attach_lookup_eq {K} `{Countable K} {A} `{GuildSubType A}
    (children : gmap K A) (gid : snowflake) (k : K) :
  attach children gid !! k = set_guild_id (Some gid) <$> children !! k.
Proof. unfold attach. apply lookup_fmap. Qed.

(** C5: construction from a snapshot keeps the guild's own fields and keeps
    in each of the five collections (members, roles, channels, emojis,
    voice states) exactly the snapshot's entries, under the same keys, each
    one the snapshot's entity with the guild's id written into its
    [guild_id]; so every entity present at construction carries the
    guild's id. *)
Theorem init_attaches_guild_id (loaded : Guild) :
  let g := Guild.__init__ loaded in
  (guild_id g = guild_id loaded /\ guild_owner_id g = guild_owner_id loaded /\
   guild_afk_channel_id g = guild_afk_channel_id loaded /\
   guild_embed_channel_id g = guild_embed_channel_id loaded /\
   guild_name g = guild_name loaded /\ guild_icon g = guild_icon loaded /\
   guild_splash g = guild_splash loaded /\ guild_region g = guild_region loaded /\
   guild_afk_timeout g = guild_afk_timeout loaded /\
   guild_embed_enabled g = guild_embed_enabled loaded /\
   guild_verification_level g = guild_verification_level loaded /\
   guild_mfa_level g = guild_mfa_level loaded /\
   guild_features g = guild_features loaded /\
   guild_member_count g = guild_member_count loaded /\
   guild_synced g = guild_synced loaded) /\
  ((forall k, guild_members g !! k
              = set_guild_id (Some (guild_id g)) <$> guild_members loaded !! k) /\
   (forall k, guild_roles g !! k
              = set_guild_id (Some (guild_id g)) <$> guild_roles loaded !! k) /\
   (forall k, guild_channels g !! k
              = set_guild_id (Some (guild_id g)) <$> guild_channels loaded !! k) /\
   (forall k, guild_emojis g !! k
              = set_guild_id (Some (guild_id g)) <$> guild_emojis loaded !! k) /\
   (forall k, guild_voice_states g !! k
              = set_guild_id (Some (guild_id g)) <$> guild_voice_states loaded !! k)) /\
  (forall k c, guild_members g !! k = Some c -> member_guild_id c = Some (guild_id g)) /\
  (forall k c, guild_roles g !! k = Some c -> role_guild_id c = Some (guild_id g)) /\
  (forall k c, guild_channels g !! k = Some c -> channel_guild_id c = Some (guild_id g)) /\
  (forall k c, guild_emojis g !! k = Some c -> emoji_guild_id c = Some (guild_id g)) /\
  (forall k c, guild_voice_states g !! k = Some c -> voice_guild_id c = Some (guild_id g)).
Proof.
  cbv zeta. split; [repeat split|]. split.
  - split; [|split; [|split; [|split]]]; intros k.
    + exact (attach_lookup_eq (guild_members loaded) (guild_id loaded) k).
    + exact (attach_lookup_eq (guild_roles loaded) (guild_id loaded) k).
    + exact (attach_lookup_eq (guild_channels loaded) (guild_id loaded) k).
    + exact (attach_lookup_eq (guild_emojis loaded) (guild_id loaded) k).
    + exact (attach_lookup_eq (guild_voice_states loaded) (guild_id loaded) k).
  - split; [|split; [|split; [|split]]]; intros k c Hk.
    + exact (attach_lookup (guild_members loaded) (guild_id loaded) k c (fun _ _ => eq_refl) Hk).
    + exact (attach_lookup (guild_roles loaded) (guild_id loaded) k c (fun _ _ => eq_refl) Hk).
    + exact (attach_lookup (guild_channels loaded) (guild_id loaded) k c (fun _ _ => eq_refl) Hk).
    + exact (attach_lookup (guild_emojis loaded) (guild_id loaded) k c (fun _ _ => eq_refl) Hk).
    + exact (attach_lookup (guild_voice_states loaded) (guild_id loaded) k c (fun _ _ => eq_refl) Hk).
Qed.

Section cache_fill.
Context `{Client}.

(** C9: a member that [get_member] inserts on a cache miss is stored as
    the remote fetch returned it, with no [guild_id] stamped on it.  So
    while the members of a freshly constructed guild all carry the
    guild's id, a guild whose cache was filled with a member whose
    [guild_id] is something else no longer has that property. *)
Theorem get_member_caches_unattached {U} {conv : ToSnowflake U} (user : U) g log m :
  guild_members g !! to_snowflake user = None ->
  reply log (guilds_members_get (guild_id g) (to_snowflake user)) = Return m ->
  let g' := fst (snd (Guild.get_member user (g, log))) in
  guild_members g' !! to_snowflake user = Some m /\
  guild_id g' = guild_id g /\
  (forall loaded, g = Guild.__init__ loaded -> members_attached g) /\
  (member_guild_id m <> Some (guild_id g) -> ~ members_attached g').
Proof.
  intros Hm Hr. rewrite (get_member_miss_fetched user g log m Hm Hr). simpl.
  assert (Hstored : (<[to_snowflake user := m]> (guild_members g) : gmap snowflake GuildMember)
                    !! to_snowflake user = Some m) by apply lookup_insert_eq.
  repeat split.
  - exact Hstored.
  - intros loaded ->. apply init_members_attached.
  - intros Hne Hatt. apply Hne.
    exact (Hatt (to_snowflake user) m Hstored).
Qed.

End cache_fill.

(** ** Synchronisation *)

Lemma member_requests_snoc (log : list Call) (c : Call) :
  member_requests (log ++ [c])
  = member_requests log ++ (if is_member_request c then [c] else []).
Proof.
  unfold member_requests. rewrite List.filter_app. simpl.
  now destruct (is_member_request c).
Qed.

Lemma quiet_api_call (g g' : Guild) (log : list Call) (c : Call) :
  guild_synced g' = guild_synced g -> is_member_request c = false ->
  quiet (g, log) (g', log ++ [c]).
Proof.
  intros Hs Hc. split; simpl; [exact Hs|].
  rewrite member_requests_snoc, Hc. apply app_nil_r.
Qed.

Section synchronisation.
Context `{Client} `{Permissions}.

Lemma sync_first g log :
  guild_synced g = false ->
  Guild.sync (g, log)
  = (reply log (member_request g), (set_synced true g, log ++ [member_request g])).
Proof.
  intros Hs. unfold Guild.sync, bind at 1, get_store at 1; simpl.
  now rewrite Hs.
Qed.

Lemma sync_again g log :
  guild_synced g = true -> Guild.sync (g, log) = (Return tt, (g, log)).
Proof.
  intros Hs. unfold Guild.sync, bind at 1, get_store at 1; simpl.
  now rewrite Hs.
Qed.

Lemma get_member_quiet {U} {conv : ToSnowflake U} (user : U) st :
  quiet st (snd (Guild.get_member user st)).
Proof.
  destruct st as [g log].
  destruct (guild_members g !! to_snowflake user) as [m|] eqn:Hm.
  - rewrite (get_member_hit user g log m Hm). now split.
  - destruct (reply log (guilds_members_get (guild_id g) (to_snowflake user)))
      as [m|e] eqn:Hr.
    + rewrite (get_member_miss_fetched user g log m Hm Hr).
      now apply quiet_api_call.
    + rewrite (get_member_miss_raised user g log e Hm Hr).
      now apply quiet_api_call.
Qed.

Lemma get_permissions_quiet (user : User) st :
  quiet st (snd (Guild.get_permissions user st)).
Proof.
  destruct st as [g log].
  destruct (Z.eq_dec (guild_owner_id g) (user_id user)) as [Hown|Hne].
  - unfold Guild.get_permissions, bind at 1, get_store at 1; simpl.
    rewrite Hown, Z.eqb_refl. now split.
  - rewrite get_permissions_non_owner by exact Hne.
    pose proof (get_member_quiet (conv := User_to_snowflake) user (g, log)) as Hq.
    destruct (Guild.get_member user (g, log)) as [[member|e] st'].
    + now rewrite resolve_from_pure.
    + exact Hq.
Qed.

(** Only [sync] touches the flag or sends a member request. *)
Lemma invoke_quiet_unless_sync (i : Invocation) st :
  i <> call_sync -> quiet st (invoke i st).
Proof.
  intros Hi. destruct i; simpl;
    try apply get_member_quiet; try apply get_permissions_quiet;
    try contradiction;
    destruct st as [g log]; now apply quiet_api_call.
Qed.

(** Once [synced] is set, no invocation clears it or sends a member
    request. *)
Lemma invoke_quiet_when_synced (i : Invocation) st :
  guild_synced (fst st) = true -> quiet st (invoke i st).
Proof.
  intros Hs. destruct (i) eqn:Hi;
    try (apply invoke_quiet_unless_sync; discriminate).
  destruct st as [g log]; simpl in *.
  rewrite (sync_again g log Hs). now split.
Qed.

Lemma invoke_all_quiet_when_synced (invocations : list Invocation) st :
  guild_synced (fst st) = true -> quiet st (invoke_all invocations st).
Proof.
  revert st. induction invocations as [|i invocations IH]; intros st Hs.
  - now split.
  - simpl. destruct (invoke_quiet_when_synced i st Hs) as [Hs1 Hr1].
    destruct (IH (invoke i st)) as [Hs2 Hr2]; [congruence|].
    unfold invoke_all in *. split; congruence.
Qed.

Lemma sync_repeated g log (N : nat) :
  guild_synced g = false ->
  invoke_all (repeat call_sync (S N)) (g, log)
  = (set_synced true g, log ++ [member_request g]).
Proof.
  intros Hs.
  change (invoke_all (repeat call_sync N) (snd (Guild.sync (g, log)))
          = (set_synced true g, log ++ [member_request g])).
  rewrite (sync_first g log Hs). simpl snd.
  induction N as [|N IH]; [reflexivity|].
  change (invoke_all (repeat call_sync N)
            (snd (Guild.sync (set_synced true g, log ++ [member_request g])))
          = (set_synced true g, log ++ [member_request g])).
  rewrite sync_again by reflexivity. exact IH.
Qed.

(** X18: whatever is invoked on a guild object, and in whatever state it
    starts, at most one member request is ever added to the log. *)
Lemma member_request_at_most_once (invocations : list Invocation) st :
  exists extra,
    member_requests (snd (invoke_all invocations st))
    = member_requests (snd st) ++ extra /\
    (length extra <= 1)%nat.
Proof.
  revert st. induction invocations as [|i invocations IH]; intros st.
  - exists []. split; [now rewrite app_nil_r|simpl; lia].
  - change (invoke_all (i :: invocations) st)
      with (invoke_all invocations (invoke i st)).
    destruct (guild_synced (fst st)) eqn:Hs.
    + destruct (invoke_all_quiet_when_synced (i :: invocations) st Hs) as [_ Hr].
      exists []. split; [now rewrite app_nil_r|simpl; lia].
    + assert (Hcase : i = call_sync \/ i <> call_sync)
        by (destruct i; (now left) || (right; discriminate)).
      destruct Hcase as [->|Hi].
      * destruct st as [g log]; simpl in Hs.
        change (invoke call_sync (g, log)) with (snd (Guild.sync (g, log))).
        rewrite (sync_first g log Hs). simpl snd.
        destruct (invoke_all_quiet_when_synced invocations
                    (set_synced true g, log ++ [member_request g]) eq_refl)
          as [_ Hr].
        exists [member_request g]. split; [|simpl; lia].
        rewrite Hr. simpl snd. now rewrite member_requests_snoc.
      * destruct (invoke_quiet_unless_sync i st Hi) as [_ Hq].
        destruct (IH (invoke i st)) as (extra & He & Hl).
        exists extra. split; [now rewrite He, Hq|exact Hl].
Qed.

(** C6: on a guild object whose [synced] flag is still false, calling
    [sync()] N >= 1 times in a row sends exactly one "request full member
    list" signal, with payload [{guild_id, query: '', limit: 0}], and
    leaves [synced] true with nothing else changed.  From then on no
    sequence of method calls on that object sets [synced] back to false
    or sends the signal again. *)
Theorem sync_requests_members_once g log (N : nat) :
  guild_synced g = false -> (1 <= N)%nat ->
  let request :=
    gw_send REQUEST_GUILD_MEMBERS
      [ ("guild_id", PyInt (guild_id g)); ("query", PyStr ""); ("limit", PyInt 0) ]%string in
  let st := invoke_all (repeat call_sync N) (g, log) in
  st = (set_synced true g, log ++ [request]) /\
  guild_synced (fst st) = true /\
  forall invocations,
    guild_synced (fst (invoke_all invocations st)) = true /\
    member_requests (snd (invoke_all invocations st)) = member_requests log ++ [request].
Proof.
  intros Hs HN request st.
  destruct N as [|N]; [lia|].
  assert (Hst : st = (set_synced true g, log ++ [request]))
    by exact (sync_repeated g log N Hs).
  split; [exact Hst|]. split; [now rewrite Hst|].
  intros invocations.
  destruct (invoke_all_quiet_when_synced invocations st) as [Hs' Hr'];
    [now rewrite Hst|].
  rewrite Hs', Hr', Hst. simpl. split; [reflexivity|].
  now rewrite member_requests_snoc.
Qed.

End synchronisation.

(** ** Remote mutations *)

Section dispatch.
Context `{Client}.

Lemma guild_resolved {A} {sub : GuildSubType A} (self : A) (guilds : Registry) log gid g :
  get_guild_id self = Some gid -> guilds !! gid = Some g ->
  GuildSubType_guild self (guilds, log) = (Return (Some g), (guilds, log)).
Proof.
  intros Hgid Hg. unfold GuildSubType_guild, bind, get_store, ret; simpl.
  now rewrite Hgid, Hg.
Qed.

(** Without a guild in the registry the member's mutators raise before
    any call is made. *)
Lemma add_role_unresolved self role (guilds : Registry) log :
  (forall gid, member_guild_id self = Some gid -> guilds !! gid = None) ->
  GuildMember.add_role self role (guilds, log) = (Raise AttributeError, (guilds, log)).
Proof.
  intros Hnone. unfold GuildMember.add_role, GuildSubType_guild, bind, get_store, ret.
  simpl. destruct (member_guild_id self) as [gid|]; [|reflexivity].
  now rewrite (Hnone gid eq_refl).
Qed.



(** C8: [update_role(r)] makes exactly one remote call, a role
    modification for the guild's id and r's id whose keywords are exactly
    name, permissions, position, color, hoist and mentionable, each taken
    from r (permissions as the raw integer of the bitset); the guild
    object is left as it was. *)
Theorem update_role_serializes (role : Role) g log :
  exists kw,
    let call := guilds_roles_modify (guild_id g) (role_id role) kw in
    Guild.update_role role (g, log) = (reply log call, (g, log ++ [call])) /\
    map fst kw
    = [ "name"; "permissions"; "position"; "color"; "hoist"; "mentionable" ]%string /\
    kwarg "name" kw = Some (PyStr (role_name role)) /\
    kwarg "permissions" kw = Some (PyInt (value (role_permissions role))) /\
    kwarg "position" kw = Some (PyInt (role_position role)) /\
    kwarg "color" kw = Some (PyInt (role_color role)) /\
    kwarg "hoist" kw = Some (PyBool (role_hoist role)) /\
    kwarg "mentionable" kw = Some (PyBool (role_mentionable role)).
Proof.
  eexists. repeat split.
Qed.

End dispatch.

(** ** The scenarios, evaluated *)

(** Spec scenario: member 3 with roles [5] gets READ ∪ WRITE. *)
Example scenario_member_3 :
  @Guild.get_permissions failing_client discord_permissions {| user_id := 3 |}
    (scenario_guild, [])
  = (Return (PermissionValue_new (Z.lor READ WRITE)), (scenario_guild, [])).
Proof. vm_compute. reflexivity. Qed.

(** Spec scenario: member 9 is the owner and gets the administrator bitset. *)
Example scenario_owner :
  @Guild.get_permissions failing_client discord_permissions {| user_id := 9 |}
    (scenario_guild, [])
  = (Return (PermissionValue_new 8), (scenario_guild, [])).
Proof. vm_compute. reflexivity. Qed.

(** [get_permissions_union] at member 3 of the scenario guild. *)
Lemma get_permissions_union_witness :
  exists v,
    @Guild.get_permissions failing_client discord_permissions {| user_id := 3 |}
      (scenario_guild, [])
    = (Return v, (scenario_guild, [])) /\
    forall n, Z.testbit (value v) n = true <->
      Z.testbit READ n = true \/
      exists rid r, rid ∈ [5] /\ guild_roles scenario_guild !! rid = Some r /\
                    Z.testbit (value (role_permissions r)) n = true.
Proof.
  refine (@get_permissions_union failing_client discord_permissions
            {| user_id := 3 |} scenario_guild [] (a_member (Some 1) 3 [5])
            (set_guild_id (Some 1) (a_role 1 READ)) _ _ _ _).
  - vm_compute. discriminate.
  - vm_compute. reflexivity.
  - vm_compute. reflexivity.
  - intros rid Hin. apply list_elem_of_singleton in Hin. subst rid.
    eexists. vm_compute. reflexivity.
Defined.

(** C1, as the spec states it, fails: member 3 of [stale_guild] is cached,
    is not the owner and lists roles 5 and 7; role 7 is not in the role
    map, and [get_permissions] raises instead of returning READ ∪ WRITE. *)
Lemma get_permissions_stale_role_not_skipped :
  guild_owner_id stale_guild <> 3 /\
  guild_members stale_guild !! 3 = Some (a_member (Some 1) 3 [5; 7]) /\
  guild_roles stale_guild !! 7 = None /\
  @Guild.get_permissions failing_client discord_permissions {| user_id := 3 |}
    (stale_guild, [])
  = (Raise AttributeError, (stale_guild, [])) /\
  fst (@Guild.get_permissions failing_client discord_permissions {| user_id := 3 |}
         (stale_guild, []))
  <> Return (PermissionValue_new (Z.lor READ WRITE)).
Proof.
  split; [vm_compute; discriminate|].
  split; [vm_compute; reflexivity|].
  split; [vm_compute; reflexivity|].
  split; [vm_compute; reflexivity|].
  vm_compute. discriminate.
Qed.

(** [get_permissions_owner] at the owner of [stale_guild], whose role data
    is inconsistent. *)
Lemma get_permissions_owner_witness :
  @Guild.get_permissions failing_client discord_permissions {| user_id := 9 |}
    (stale_guild, [])
  = (Return (PermissionValue_new 8), (stale_guild, [])).
Proof.
  apply (@get_permissions_owner failing_client discord_permissions
           {| user_id := 9 |} stale_guild []).
  reflexivity.
Defined.

(** [get_member_miss] at user 42, unknown to the cache and to the remote
    side: two calls, two fetches. *)
Lemma get_member_miss_witness :
  @Guild.get_member failing_client snowflake snowflake_to_snowflake 42 (owner_only_guild, [])
  = (Return None, (owner_only_guild, [guilds_members_get 1 42])) /\
  snd (snd (@Guild.get_member failing_client snowflake snowflake_to_snowflake 42
              (owner_only_guild, [guilds_members_get 1 42])))
  = [guilds_members_get 1 42; guilds_members_get 1 42].
Proof.
  exact (@get_member_miss failing_client snowflake snowflake_to_snowflake 42 owner_only_guild []
           ltac:(vm_compute; reflexivity)).
Defined.

(** C4, as the spec states it, fails: user 3 is not the owner and is absent
    from the member cache of [owner_only_guild]; [get_permissions] fetches
    the member from the remote side and inserts it into the member map. *)
Lemma get_permissions_fills_cache :
  guild_owner_id owner_only_guild <> 3 /\
  guild_members owner_only_guild !! 3 = None /\
  snd (@Guild.get_permissions generous_client discord_permissions {| user_id := 3 |}
         (owner_only_guild, []))
  = (set_members (<[3 := a_member None 3 [5]]> (guild_members owner_only_guild))
       owner_only_guild,
     [guilds_members_get 1 3]) /\
  snd (@Guild.get_permissions generous_client discord_permissions {| user_id := 3 |}
         (owner_only_guild, []))
  <> (owner_only_guild, []).
Proof.
  split; [vm_compute; discriminate|].
  split; [vm_compute; reflexivity|].
  split; [vm_compute; reflexivity|].
  vm_compute. discriminate.
Qed.

(** [get_permissions_member_lookup] at a cached member and at an absent
    one whose fetch fails. *)
Lemma get_permissions_member_lookup_witness :
  snd (@Guild.get_permissions failing_client discord_permissions {| user_id := 3 |}
         (scenario_guild, []))
  = (scenario_guild, []) /\
  @Guild.get_permissions failing_client discord_permissions {| user_id := 3 |}
    (owner_only_guild, [])
  = (Raise AttributeError, (owner_only_guild, [guilds_members_get 1 3])).
Proof.
  split.
  - apply (proj1 (@get_permissions_member_lookup failing_client discord_permissions
                    {| user_id := 3 |} scenario_guild []
                    ltac:(vm_compute; discriminate))
             (a_member (Some 1) 3 [5])).
    vm_compute. reflexivity.
  - exact (proj2 (proj2 (@get_permissions_member_lookup failing_client
                           discord_permissions {| user_id := 3 |} owner_only_guild []
                           ltac:(vm_compute; discriminate))
                    ltac:(vm_compute; reflexivity))).
Defined.

(** [init_attaches_guild_id] at the scenario guild: what each collection
    holds after construction for one key of the snapshot, and the guild id
    that entity carries. *)
Lemma init_attaches_guild_id_witness :
  (guild_members scenario_guild !! 3
   = set_guild_id (Some 1) <$> guild_members loaded_guild !! 3 /\
   guild_members scenario_guild !! 4
   = set_guild_id (Some 1) <$> guild_members loaded_guild !! 4) /\
  (forall c, guild_members scenario_guild !! 3 = Some c -> member_guild_id c = Some 1) /\
  (forall c, guild_roles scenario_guild !! 5 = Some c -> role_guild_id c = Some 1) /\
  (forall c, guild_channels scenario_guild !! 20 = Some c -> channel_guild_id c = Some 1) /\
  (forall c, guild_emojis scenario_guild !! 30 = Some c -> emoji_guild_id c = Some 1) /\
  (forall c, guild_voice_states scenario_guild !! "s1"%string = Some c ->
     voice_guild_id c = Some 1).
Proof.
  destruct (init_attaches_guild_id loaded_guild)
    as (_ & (Hmembers & _) & Hm & Hr & Hc & He & Hv).
  split; [split; [exact (Hmembers 3)|exact (Hmembers 4)]|].
  split; [exact (Hm 3)|]. split; [exact (Hr 5)|]. split; [exact (Hc 20)|].
  split; [exact (He 30)|exact (Hv "s1"%string)].
Defined.

(** [sync_requests_members_once] at three calls of [sync]. *)
Lemma sync_requests_members_once_witness :
  @invoke_all failing_client discord_permissions (repeat call_sync 3) (scenario_guild, [])
  = (set_synced true scenario_guild, [member_request scenario_guild]).
Proof.
  exact (proj1 (@sync_requests_members_once failing_client discord_permissions
                  scenario_guild [] 3%nat ltac:(vm_compute; reflexivity) ltac:(lia))).
Defined.



(** [get_member_caches_unattached] at user 42, whom the remote side returns
    without a guild id. *)
Lemma get_member_caches_unattached_witness :
  members_attached owner_only_guild /\
  guild_members
    (fst (snd (@Guild.get_member generous_client snowflake snowflake_to_snowflake 42
                 (owner_only_guild, [])))) !! 42
  = Some (a_member None 42 [5]) /\
  ~ members_attached
      (fst (snd (@Guild.get_member generous_client snowflake snowflake_to_snowflake 42
                   (owner_only_guild, [])))).
Proof.
  destruct (@get_member_caches_unattached generous_client snowflake
              snowflake_to_snowflake 42 owner_only_guild [] (a_member None 42 [5])
              ltac:(vm_compute; reflexivity) ltac:(vm_compute; reflexivity))
    as (Hstored & _ & Hinit & Hbroken).
  split; [|split].
  - exact (Hinit _ eq_refl).
  - exact Hstored.
  - apply Hbroken. vm_compute. discriminate.
Defined.

(** ** Further properties of the member cache *)

Lemma set_members_same (g : Guild) : set_members (guild_members g) g = g.
Proof. now destruct g. Qed.

Section member_cache_more.
Context `{Client}.

(** X1: for an id that is cached, two calls of [get_member] in a row return
    the same member, make no remote call and leave the guild as it was. *)
Theorem get_member_twice_on_hit {U} {conv : ToSnowflake U} (user : U) g log m :
  guild_members g !! to_snowflake user = Some m ->
  (first <- Guild.get_member user ;;
   second <- Guild.get_member user ;;
   ret (first, second)) (g, log)
  = (Return (Some m, Some m), (g, log)).
Proof.
  intros Hm. unfold bind at 1. rewrite (get_member_hit user g log m Hm).
  unfold bind at 1. rewrite (get_member_hit user g log m Hm).
  reflexivity.
Qed.

(** X2: whatever the cache and the remote side hold, a value that
    [get_member] returns is the entry the member map holds for that id
    afterwards ([None] when there is none); [APIException] never escapes,
    and an exception that does escape leaves the guild unchanged. *)
Theorem get_member_returns_cache_entry {U} {conv : ToSnowflake U} (user : U) g log :
  match Guild.get_member user (g, log) with
  | (Return r, (g', _)) => guild_members g' !! to_snowflake user = r
  | (Raise e, (g', _)) => e <> APIException /\ g' = g
  end.
Proof.
  destruct (guild_members g !! to_snowflake user) as [m|] eqn:Hm.
  - now rewrite (get_member_hit user g log m Hm).
  - destruct (reply log (guilds_members_get (guild_id g) (to_snowflake user)))
      as [m|e] eqn:Hr.
    + rewrite (get_member_miss_fetched user g log m Hm Hr). simpl.
      apply lookup_insert_eq.
    + rewrite (get_member_miss_raised user g log e Hm Hr).
      destruct e; [exact Hm|split; [discriminate|reflexivity]..].
Qed.

(** X3: [get_member] only ever adds to the guild: every member cached
    before is cached unchanged afterwards, no entry other than the one for
    the requested id is touched, no field other than the member map
    changes, and the only remote call it can make is one fetch for that
    id. *)
Theorem get_member_only_fills {U} {conv : ToSnowflake U} (user : U) g log :
  let fetch := guilds_members_get (guild_id g) (to_snowflake user) in
  let st' := snd (Guild.get_member user (g, log)) in
  guild_members g ⊆ guild_members (fst st') /\
  (forall k, k <> to_snowflake user ->
     guild_members (fst st') !! k = guild_members g !! k) /\
  fst st' = set_members (guild_members (fst st')) g /\
  (snd st' = log \/ snd st' = log ++ [fetch]).
Proof.
  intros fetch st'. subst st'.
  destruct (guild_members g !! to_snowflake user) as [m|] eqn:Hm.
  - rewrite (get_member_hit user g log m Hm). simpl.
    repeat split; [reflexivity|now rewrite set_members_same|now left].
  - destruct (reply log fetch) as [m|e] eqn:Hr.
    + rewrite (get_member_miss_fetched user g log m Hm Hr). simpl.
      repeat split; [now apply insert_subseteq| |now right].
      intros k Hk. now apply lookup_insert_ne.
    + rewrite (get_member_miss_raised user g log e Hm Hr). simpl.
      repeat split; [reflexivity|now rewrite set_members_same|now right].
Qed.

End member_cache_more.

(** ** Further properties of permission resolution *)

Lemma PermissionValue_eq (v w : PermissionValue) :
  (forall n, Z.testbit (value v) n = true <-> Z.testbit (value w) n = true) -> v = w.
Proof.
  intros Hbits. destruct v as [v], w as [w]. simpl in Hbits. f_equal.
  apply Z.bits_inj'. intros n _. specialize (Hbits n).
  destruct (Z.testbit v n), (Z.testbit w n); intuition congruence.
Qed.

Section permissions_more.
Context `{Client} `{Permissions}.

(** With the member cached and the everyone-role present, what is left of
    [get_permissions] is the loop. *)
Lemma get_permissions_cached (user : User) g log m everyone :
  guild_owner_id g <> user_id user ->
  guild_members g !! user_id user = Some m ->
  guild_roles g !! guild_id g = Some everyone ->
  Guild.get_permissions user (g, log)
  = for_in (map (fun r => guild_roles g !! r) (member_roles m))
      (PermissionValue_new (value (role_permissions everyone))) grant (g, log).
Proof.
  intros Hne Hm Hev.
  rewrite get_permissions_non_owner by exact Hne.
  rewrite (get_member_hit (conv := User_to_snowflake) user g log m Hm).
  unfold bind at 1, get_store at 1; simpl.
  unfold bind at 1. rewrite Hev; simpl.
  unfold bind at 1; simpl. reflexivity.
Qed.

(** X4: for a non-owner user who is absent from the cache and whom the
    remote side returns, [get_permissions] gives exactly what it gives on
    the guild with that member cached: fetching first changes nothing in the
    permissions computed. *)
Theorem get_permissions_fetch_then_resolve (user : User) g log m :
  guild_owner_id g <> user_id user ->
  guild_members g !! user_id user = None ->
  reply log (guilds_members_get (guild_id g) (user_id user)) = Return m ->
  Guild.get_permissions user (g, log)
  = Guild.get_permissions user
      (set_members (<[user_id user := m]> (guild_members g)) g,
       log ++ [guilds_members_get (guild_id g) (user_id user)]).
Proof.
  intros Hne Hm Hr.
  rewrite !get_permissions_non_owner by exact Hne.
  rewrite (get_member_miss_fetched (conv := User_to_snowflake) user g log m Hm Hr).
  rewrite (get_member_hit (conv := User_to_snowflake) user _ _ m); [reflexivity|].
  simpl. apply lookup_insert_eq.
Qed.

(** X5: for a non-owner cached member, a role map without the everyone-role
    (no role whose id is the guild's id) makes [get_permissions] raise
    [AttributeError]; the guild and the log are untouched. *)
Theorem get_permissions_no_everyone_role (user : User) g log m :
  guild_owner_id g <> user_id user ->
  guild_members g !! user_id user = Some m ->
  guild_roles g !! guild_id g = None ->
  Guild.get_permissions user (g, log) = (Raise AttributeError, (g, log)).
Proof.
  intros Hne Hm Hev.
  rewrite get_permissions_non_owner by exact Hne.
  rewrite (get_member_hit (conv := User_to_snowflake) user g log m Hm).
  unfold bind at 1, get_store at 1; simpl.
  unfold bind at 1. now rewrite Hev.
Qed.

(** X7: a role added to a member's list never takes a permission away: if
    every role id of [m1] is also listed by [m2] (and all of them resolve),
    every bit granted with [m1] cached is granted with [m2] cached. *)
Theorem get_permissions_grows_with_roles (user : User) g log m1 m2 everyone :
  guild_owner_id g <> user_id user ->
  guild_roles g !! guild_id g = Some everyone ->
  (forall rid, rid ∈ member_roles m2 -> is_Some (guild_roles g !! rid)) ->
  (forall rid, rid ∈ member_roles m1 -> rid ∈ member_roles m2) ->
  exists v1 v2,
    fst (Guild.get_permissions user
           (set_members (<[user_id user := m1]> (guild_members g)) g, log)) = Return v1 /\
    fst (Guild.get_permissions user
           (set_members (<[user_id user := m2]> (guild_members g)) g, log)) = Return v2 /\
    forall n, Z.testbit (value v1) n = true -> Z.testbit (value v2) n = true.
Proof.
  intros Hne Hev Hres Hsub.
  set (g1 := set_members (<[user_id user := m1]> (guild_members g)) g).
  set (g2 := set_members (<[user_id user := m2]> (guild_members g)) g).
  assert (Hres1 : forall rid, rid ∈ member_roles m1 -> is_Some (guild_roles g1 !! rid))
    by (intros rid Hin; apply Hres, Hsub, Hin).
  destruct (accumulate_resolved g1 (member_roles m1)
              (PermissionValue_new (value (role_permissions everyone))) (g1, log) Hres1)
    as (v1 & Hrun1 & Hbits1).
  destruct (accumulate_resolved g2 (member_roles m2)
              (PermissionValue_new (value (role_permissions everyone))) (g2, log) Hres)
    as (v2 & Hrun2 & Hbits2).
  exists v1, v2.
  rewrite (get_permissions_cached user g1 log m1 everyone Hne
             (lookup_insert_eq _ _ _) Hev), Hrun1.
  rewrite (get_permissions_cached user g2 log m2 everyone Hne
             (lookup_insert_eq _ _ _) Hev), Hrun2.
  repeat split. intros n. rewrite Hbits1, Hbits2.
  intros [Hn|(rid & r & Hin & Hr & Hn)]; [now left|].
  right. exists rid, r. split; [now apply Hsub|now split].
Qed.

(** X8: the permissions of a member depend on the set of role ids it lists
    only: two lists with the same ids, in any order and with any
    repetitions, give the same bitset. *)
Theorem get_permissions_ignores_order_and_duplicates
    (user : User) g log m1 m2 everyone :
  guild_owner_id g <> user_id user ->
  guild_roles g !! guild_id g = Some everyone ->
  (forall rid, rid ∈ member_roles m1 -> is_Some (guild_roles g !! rid)) ->
  (forall rid, rid ∈ member_roles m1 <-> rid ∈ member_roles m2) ->
  fst (Guild.get_permissions user
         (set_members (<[user_id user := m1]> (guild_members g)) g, log))
  = fst (Guild.get_permissions user
           (set_members (<[user_id user := m2]> (guild_members g)) g, log)).
Proof.
  intros Hne Hev Hres Hsame.
  set (g1 := set_members (<[user_id user := m1]> (guild_members g)) g).
  set (g2 := set_members (<[user_id user := m2]> (guild_members g)) g).
  assert (Hres2 : forall rid, rid ∈ member_roles m2 -> is_Some (guild_roles g2 !! rid))
    by (intros rid Hin; apply Hres, Hsame, Hin).
  destruct (accumulate_resolved g1 (member_roles m1)
              (PermissionValue_new (value (role_permissions everyone))) (g1, log) Hres)
    as (v1 & Hrun1 & Hbits1).
  destruct (accumulate_resolved g2 (member_roles m2)
              (PermissionValue_new (value (role_permissions everyone))) (g2, log) Hres2)
    as (v2 & Hrun2 & Hbits2).
  rewrite (get_permissions_cached user g1 log m1 everyone Hne
             (lookup_insert_eq _ _ _) Hev), Hrun1.
  rewrite (get_permissions_cached user g2 log m2 everyone Hne
             (lookup_insert_eq _ _ _) Hev), Hrun2.
  simpl. f_equal. apply PermissionValue_eq. intros n.
  rewrite Hbits1, Hbits2. split.
  - intros [Hn|(rid & r & Hin & Hr & Hn)]; [now left|].
    right. exists rid, r. split; [now apply Hsame|now split].
  - intros [Hn|(rid & r & Hin & Hr & Hn)]; [now left|].
    right. exists rid, r. split; [now apply Hsame|now split].
Qed.

End permissions_more.

(** ** Further properties of sequences of calls *)

Lemma set_synced_members_same (g : Guild) :
  set_synced (guild_synced g) (set_members (guild_members g) g) = g.
Proof. now destruct g. Qed.

Lemma grown_by_refl st : grown_by 0 st st.
Proof.
  split; [|split; [|split]].
  - now rewrite set_synced_members_same.
  - reflexivity.
  - tauto.
  - exists []. split; [now rewrite app_nil_r|reflexivity].
Qed.

Lemma grown_by_call (g : Guild) log (c : Call) : grown_by 1 (g, log) (g, log ++ [c]).
Proof.
  split; [|split; [|split]]; simpl.
  - now rewrite set_synced_members_same.
  - reflexivity.
  - tauto.
  - exists [c]. split; reflexivity.
Qed.

Lemma grown_by_weaken n m st st' : (n <= m)%nat -> grown_by n st st' -> grown_by m st st'.
Proof.
  intros Hnm (Hg & Hms & Hs & extra & Hlog & Hlen).
  split; [|split; [|split]]; try assumption.
  exists extra. split; [assumption|lia].
Qed.

Lemma grown_by_trans n m st st' st'' :
  grown_by n st st' -> grown_by m st' st'' -> grown_by (n + m) st st''.
Proof.
  intros (Hg & Hms & Hs & extra & Hlog & Hlen) (Hg' & Hms' & Hs' & extra' & Hlog' & Hlen').
  split; [|split; [|split]].
  - rewrite Hg', Hg. reflexivity.
  - now transitivity (guild_members (fst st')).
  - tauto.
  - exists (extra ++ extra'). split.
    + now rewrite Hlog', Hlog, app_assoc.
    + rewrite length_app. lia.
Qed.

Section sequences_more.
Context `{Client} `{Permissions}.

Lemma get_member_grown {U} {conv : ToSnowflake U} (user : U) st :
  grown_by 1 st (snd (Guild.get_member user st)).
Proof.
  destruct st as [g log].
  destruct (guild_members g !! to_snowflake user) as [m|] eqn:Hm.
  - rewrite (get_member_hit user g log m Hm).
    apply (grown_by_weaken 0); [lia|apply grown_by_refl].
  - destruct (reply log (guilds_members_get (guild_id g) (to_snowflake user)))
      as [m|e] eqn:Hr.
    + rewrite (get_member_miss_fetched user g log m Hm Hr).
      split; [|split; [|split]]; simpl.
      * reflexivity.
      * now apply insert_subseteq.
      * tauto.
      * eexists. split; reflexivity.
    + rewrite (get_member_miss_raised user g log e Hm Hr). apply grown_by_call.
Qed.

Lemma get_permissions_grown (user : User) st :
  grown_by 1 st (snd (Guild.get_permissions user st)).
Proof.
  destruct st as [g log].
  destruct (Z.eq_dec (guild_owner_id g) (user_id user)) as [Hown|Hne].
  - unfold Guild.get_permissions, bind at 1, get_store at 1; simpl.
    rewrite Hown, Z.eqb_refl.
    apply (grown_by_weaken 0); [lia|apply grown_by_refl].
  - rewrite get_permissions_non_owner by exact Hne.
    pose proof (get_member_grown (conv := User_to_snowflake) user (g, log)) as Hq.
    destruct (Guild.get_member user (g, log)) as [[member|e] st'].
    + now rewrite resolve_from_pure.
    + exact Hq.
Qed.

Lemma invoke_grown (i : Invocation) st : grown_by 1 st (invoke i st).
Proof.
  destruct i; simpl;
    try apply get_member_grown; try apply get_permissions_grown;
    destruct st as [g log]; try apply grown_by_call.
  destruct (guild_synced g) eqn:Hs.
  - rewrite (sync_again g log Hs).
    apply (grown_by_weaken 0); [lia|apply grown_by_refl].
  - rewrite (sync_first g log Hs).
    split; [|split; [|split]]; simpl.
    + reflexivity.
    + reflexivity.
    + tauto.
    + eexists. split; reflexivity.
Qed.

(** X9: calling [sync] a second time changes nothing, from any starting
    state: the guild and the log after two calls are those after one, and
    the second call returns without asking the gateway. *)
Theorem sync_idempotent st :
  Guild.sync (snd (Guild.sync st)) = (Return tt, snd (Guild.sync st)).
Proof.
  destruct st as [g log]. destruct (guild_synced g) eqn:Hs.
  - rewrite (sync_again g log Hs). simpl. now apply sync_again.
  - rewrite (sync_first g log Hs). simpl. now apply sync_again.
Qed.

(** X10: no sequence of method calls on a guild object changes its id, its
    owner, its roles, channels, emojis, voice states or any other field but
    the member map and the [synced] flag; the member map only gains
    entries, [synced] never goes back to false, and each call adds at most
    one outbound call to the log. *)
Theorem invoke_all_keeps_guild_data (invocations : list Invocation) g log :
  let st' := invoke_all invocations (g, log) in
  fst st' = set_synced (guild_synced (fst st')) (set_members (guild_members (fst st')) g) /\
  guild_members g ⊆ guild_members (fst st') /\
  (guild_synced g = true -> guild_synced (fst st') = true) /\
  exists extra, snd st' = log ++ extra /\ (length extra <= length invocations)%nat.
Proof.
  change (grown_by (length invocations) (g, log) (invoke_all invocations (g, log))).
  generalize (g, log). clear g log.
  induction invocations as [|i invocations IH]; intros st.
  - apply grown_by_refl.
  - change (invoke_all (i :: invocations) st)
      with (invoke_all invocations (invoke i st)).
    apply (grown_by_trans 1 (length invocations) st (invoke i st)).
    + apply invoke_grown.
    + apply IH.
Qed.

End sequences_more.

(** ** Further properties of the child entities' methods *)

Section children.
Context `{Client} `{Permissions}.

(** A guild method that leaves the guild object alone leaves the registry
    alone when it is called through [self.guild]. *)
Lemma on_guild_resolved {A B} {sub : GuildSubType A} (self : A)
    (method : Py Guild B) (guilds : Registry) log gid g r log' :
  get_guild_id self = Some gid -> guilds !! gid = Some g ->
  method (g, log) = (r, (g, log')) ->
  on_guild self method (guilds, log) = (r, (guilds, log')).
Proof.
  intros Hgid Hg Hrun. unfold on_guild; simpl.
  rewrite Hgid, Hg, Hrun. now rewrite (insert_id guilds gid g Hg).
Qed.




(** The loop of [get_voice_state], on any collection of voice states. *)
Lemma find_voice_state (states : gmap string VoiceState) (user : snowflake) :
  match List.find (fun state => voice_user_id state =? user) (itervalues states) with
  | Some state =>
      voice_user_id state = user /\ exists k, states !! k = Some state
  | None =>
      forall k state, states !! k = Some state -> voice_user_id state <> user
  end.
Proof.
  destruct (List.find _ _) as [state|] eqn:Hfind.
  - apply List.find_some in Hfind as [Hin Huser].
    split; [now apply Z.eqb_eq|].
    apply list_elem_of_In, list_elem_of_fmap in Hin as ([k state'] & -> & Hin).
    exists k. now apply elem_of_map_to_list.
  - intros k state Hk Huser.
    assert (Hin : List.In state (itervalues states)).
    { apply list_elem_of_In, list_elem_of_fmap. exists (k, state).
      split; [reflexivity|now apply elem_of_map_to_list]. }
    pose proof (List.find_none _ _ Hfind state Hin) as Hno. simpl in Hno.
    now apply Z.eqb_neq in Hno.
Qed.

(** X15: [Guild.get_voice_state] never raises, calls nothing and changes
    nothing.  A voice state it returns is one of the guild's voice states
    and belongs to the user asked for; it returns [None] exactly when no
    voice state of the guild belongs to that user. *)
Theorem get_voice_state_finds {U} {conv : ToSnowflake U} (user : U) g log :
  exists r,
    Guild.get_voice_state user (g, log) = (Return r, (g, log)) /\
    match r with
    | Some state =>
        voice_user_id state = to_snowflake user /\
        exists k, guild_voice_states g !! k = Some state
    | None =>
        forall k state, guild_voice_states g !! k = Some state ->
                        voice_user_id state <> to_snowflake user
    end.
Proof.
  eexists. split; [reflexivity|].
  apply find_voice_state.
Qed.

End children.

Lemma length_append (s t : string) :
  String.length (s +:+ t) = (String.length s + String.length t)%nat.
Proof. induction s as [|c s IH]; simpl; [reflexivity|now rewrite IH]. Qed.

Lemma append_inj_r (s1 s2 t : string) : s1 +:+ t = s2 +:+ t -> s1 = s2.
Proof.
  revert s2. induction s1 as [|c1 s1 IH]; intros [|c2 s2] Heq; simpl in Heq.
  - reflexivity.
  - apply (f_equal String.length) in Heq.
    rewrite !length_append in Heq. simpl in Heq. lia.
  - apply (f_equal String.length) in Heq.
    rewrite !length_append in Heq. simpl in Heq. lia.
  - injection Heq as -> Heq. f_equal. now apply IH.
Qed.

(** X17: the mention of a role determines the role's id: two roles have
    the same mention exactly when they have the same id. *)
Theorem role_mention_identifies_id (r1 r2 : Role) :
  Role.mention r1 = Role.mention r2 <-> role_id r1 = role_id r2.
Proof.
  unfold Role.mention. split; [|now intros ->].
  intros Heq. simpl in Heq. injection Heq as Heq.
  apply (append_inj_r (pretty (role_id r1)) (pretty (role_id r2)) ">") in Heq.
  now apply (inj pretty).
Qed.

(** ** The further properties at the scenarios *)

Example role_5_mention : Role.mention (a_role 5 WRITE) = "<@5>"%string.
Proof. vm_compute. reflexivity. Qed.

Example member_3_voice_state :
  fst (@Guild.get_voice_state snowflake snowflake_to_snowflake 3 (scenario_guild, []))
  = Return (Some {| voice_session_id := "s1"; voice_guild_id := Some 1;
                    voice_user_id := 3 |}).
Proof. vm_compute. reflexivity. Qed.

(** [get_member_twice_on_hit] at member 3 of the scenario guild. *)
Lemma get_member_twice_on_hit_witness :
  (first <- @Guild.get_member failing_client snowflake snowflake_to_snowflake 3 ;;
   second <- @Guild.get_member failing_client snowflake snowflake_to_snowflake 3 ;;
   ret (first, second)) (scenario_guild, [])
  = (Return (Some (a_member (Some 1) 3 [5]), Some (a_member (Some 1) 3 [5])),
     (scenario_guild, [])).
Proof.
  exact (@get_member_twice_on_hit failing_client snowflake snowflake_to_snowflake 3
           scenario_guild [] (a_member (Some 1) 3 [5]) ltac:(vm_compute; reflexivity)).
Defined.

(** [get_permissions_fetch_then_resolve] at user 3, absent from the cache
    and returned by the remote side. *)
Lemma get_permissions_fetch_then_resolve_witness :
  @Guild.get_permissions generous_client discord_permissions {| user_id := 3 |}
    (owner_only_guild, [])
  = @Guild.get_permissions generous_client discord_permissions {| user_id := 3 |}
      (set_members (<[3 := a_member None 3 [5]]> (guild_members owner_only_guild))
         owner_only_guild,
       [guilds_members_get 1 3]).
Proof.
  exact (@get_permissions_fetch_then_resolve generous_client discord_permissions
           {| user_id := 3 |} owner_only_guild [] (a_member None 3 [5])
           ltac:(vm_compute; discriminate) ltac:(vm_compute; reflexivity)
           ltac:(vm_compute; reflexivity)).
Defined.

(** [get_permissions_no_everyone_role] at member 3 of the guild without
    roles. *)
Lemma get_permissions_no_everyone_role_witness :
  @Guild.get_permissions failing_client discord_permissions {| user_id := 3 |}
    (bare_guild, [])
  = (Raise AttributeError, (bare_guild, [])).
Proof.
  exact (@get_permissions_no_everyone_role failing_client discord_permissions
           {| user_id := 3 |} bare_guild [] (a_member (Some 1) 3 [5])
           ltac:(vm_compute; discriminate) ltac:(vm_compute; reflexivity)
           ltac:(vm_compute; reflexivity)).
Defined.

(** [get_permissions_stale_raises] at member 3 of [stale_guild] and its
    role 7. *)
Lemma get_permissions_stale_raises_witness :
  @Guild.get_permissions failing_client discord_permissions {| user_id := 3 |}
    (stale_guild, [])
  = (Raise AttributeError, (stale_guild, [])).
Proof.
  refine (@get_permissions_stale_raises failing_client discord_permissions
            {| user_id := 3 |} stale_guild [] (a_member (Some 1) 3 [5; 7])
            (a_role 1 READ) 7 _ _ _ _ _).
  - vm_compute. discriminate.
  - vm_compute. reflexivity.
  - vm_compute. reflexivity.
  - set_solver.
  - vm_compute. reflexivity.
Defined.

(** [get_permissions_grows_with_roles] at member 3 without roles and with
    role 5. *)
Lemma get_permissions_grows_with_roles_witness :
  exists v1 v2,
    fst (@Guild.get_permissions failing_client discord_permissions {| user_id := 3 |}
           (set_members (<[3 := a_member (Some 1) 3 []]> (guild_members scenario_guild))
              scenario_guild, []))
    = Return v1 /\
    fst (@Guild.get_permissions failing_client discord_permissions {| user_id := 3 |}
           (set_members (<[3 := a_member (Some 1) 3 [5]]> (guild_members scenario_guild))
              scenario_guild, []))
    = Return v2 /\
    forall n, Z.testbit (value v1) n = true -> Z.testbit (value v2) n = true.
Proof.
  refine (@get_permissions_grows_with_roles failing_client discord_permissions
            {| user_id := 3 |} scenario_guild [] (a_member (Some 1) 3 [])
            (a_member (Some 1) 3 [5]) (set_guild_id (Some 1) (a_role 1 READ)) _ _ _ _).
  - vm_compute. discriminate.
  - vm_compute. reflexivity.
  - intros rid Hin. apply list_elem_of_singleton in Hin. subst rid.
    eexists. vm_compute. reflexivity.
  - intros rid Hin. inversion Hin.
Defined.

(** [get_permissions_ignores_order_and_duplicates] at the role lists [5]
    and [5; 5]. *)
Lemma get_permissions_ignores_order_and_duplicates_witness :
  fst (@Guild.get_permissions failing_client discord_permissions {| user_id := 3 |}
         (set_members (<[3 := a_member (Some 1) 3 [5]]> (guild_members scenario_guild))
            scenario_guild, []))
  = fst (@Guild.get_permissions failing_client discord_permissions {| user_id := 3 |}
           (set_members (<[3 := a_member (Some 1) 3 [5; 5]]> (guild_members scenario_guild))
              scenario_guild, [])).
Proof.
  refine (@get_permissions_ignores_order_and_duplicates failing_client
            discord_permissions {| user_id := 3 |} scenario_guild []
            (a_member (Some 1) 3 [5]) (a_member (Some 1) 3 [5; 5])
            (set_guild_id (Some 1) (a_role 1 READ)) _ _ _ _).
  - vm_compute. discriminate.
  - vm_compute. reflexivity.
  - intros rid Hin. apply list_elem_of_singleton in Hin. subst rid.
    eexists. vm_compute. reflexivity.
  - intros rid. simpl. rewrite !elem_of_cons. tauto.
Defined.




(** ** Methods of a member that has stored its guild *)

Lemma set_stored_guild_same (h : Heap) : set_stored_guild (stored_guild h) h = h.
Proof. now destruct h. Qed.

Section stored.
Context `{Client} `{Permissions}.

(** A read of [guild] gives [guild_of] and leaves it stored. *)
Lemma guild_read {A} {sub : GuildSubType A} (self : A) h log :
  Stored.guild self (h, log)
  = (Return (guild_of self h), (set_stored_guild (Some (guild_of self h)) h, log)).
Proof.
  unfold Stored.guild, cached_property, guild_of, bind at 1, get_store at 1; simpl.
  destruct (stored_guild h) as [stored|] eqn:Hs.
  - unfold ret. now rewrite <- Hs, set_stored_guild_same.
  - reflexivity.
Qed.

Lemma guild_attr_none {A B} {sub : GuildSubType A} (self : A) (attr : Guild -> B) h log :
  guild_of self h = None ->
  Stored.guild_attr self attr (h, log)
  = (Raise AttributeError, (set_stored_guild (Some None) h, log)).
Proof.
  intros Hg. unfold Stored.guild_attr, bind at 1. now rewrite guild_read, Hg.
Qed.

Lemma guild_attr_some {A B} {sub : GuildSubType A} (self : A) (attr : Guild -> B)
    h log l g :
  guild_of self h = Some l -> guild_objects h !! l = Some g ->
  Stored.guild_attr self attr (h, log)
  = (Return (attr g), (set_stored_guild (Some (Some l)) h, log)).
Proof.
  intros Hg Hl. unfold Stored.guild_attr, bind at 1. rewrite guild_read, Hg.
  unfold Stored.object_at, bind, get_store, ret; simpl. now rewrite Hl.
Qed.

Lemma guild_call_none {A B} {sub : GuildSubType A} (self : A) (method : Py Guild B)
    h log :
  guild_of self h = None ->
  Stored.guild_call self method (h, log)
  = (Raise AttributeError, (set_stored_guild (Some None) h, log)).
Proof.
  intros Hg. unfold Stored.guild_call, bind at 1. now rewrite guild_read, Hg.
Qed.

(** A guild method that leaves the guild object alone leaves the heap
    alone, but for the stored guild. *)
Lemma guild_call_some {A B} {sub : GuildSubType A} (self : A) (method : Py Guild B)
    h log l g r log' :
  guild_of self h = Some l -> guild_objects h !! l = Some g ->
  method (g, log) = (r, (g, log')) ->
  Stored.guild_call self method (h, log)
  = (r, (set_stored_guild (Some (Some l)) h, log')).
Proof.
  intros Hg Hl Hrun. unfold Stored.guild_call, bind at 1. rewrite guild_read, Hg.
  unfold Stored.object_at, bind, get_store, ret; simpl. rewrite Hl.
  cbn [fst snd]. rewrite Hrun.
  unfold set_guild_objects, set_stored_guild; simpl.
  now rewrite (insert_id (guild_objects h) l g Hl).
Qed.

(** Once [owner] has been read, a read gives the stored value and reads
    nothing else. *)
Lemma owner_stored (self : GuildMember) h log b :
  stored_owner h = Some b -> Stored.owner self (h, log) = (Return b, (h, log)).
Proof.
  intros Hs. unfold Stored.owner, cached_property, bind at 1, get_store at 1; simpl.
  now rewrite Hs.
Qed.

(** On an instance that has not read [guild] before, the methods give the
    result and the log that [GuildMember] gives them on the registry as it
    stands. *)
Lemma first_read_agrees (self : GuildMember) h log (role : Role)
    (nickname : option string) (days : Z) :
  stored_guild h = None -> registry_allocated h ->
  let same {B} (stored : Result B * (Heap * list Call))
                (plain : Result B * (Registry * list Call)) :=
    fst stored = fst plain /\ snd (snd stored) = snd (snd plain) in
  same (Stored.kick self (h, log)) (GuildMember.kick self (first_read_registry h, log)) /\
  same (Stored.ban self days (h, log))
       (GuildMember.ban self days (first_read_registry h, log)) /\
  same (Stored.set_nickname self nickname (h, log))
       (GuildMember.set_nickname self nickname (first_read_registry h, log)) /\
  same (Stored.add_role self role (h, log))
       (GuildMember.add_role self role (first_read_registry h, log)).
Proof.
  intros Hs Halloc same. subst same. cbv beta.
  assert (Hban : forall g,
            Guild.create_ban self days (g, log)
            = (reply log (guilds_bans_create (guild_id g) (member_id self) days),
               (g, log ++ [guilds_bans_create (guild_id g) (member_id self) days])))
    by reflexivity.
  destruct (guild_of self h) as [l|] eqn:Hg.
  - assert (Hreg : exists gid, member_guild_id self = Some gid /\ state_guilds h !! gid = Some l).
    { unfold guild_of in Hg. rewrite Hs in Hg. simpl in Hg.
      destruct (member_guild_id self) as [gid|]; [|discriminate]. now exists gid. }
    destruct Hreg as (gid & Hgid & Hl).
    destruct (Halloc gid l Hl) as [g Hobj].
    assert (Hplain : first_read_registry h !! gid = Some g).
    { unfold first_read_registry. rewrite lookup_omap, Hl. exact Hobj. }
    pose proof (guild_resolved (sub := GuildMember_sub) self (first_read_registry h) log
                  gid g Hgid Hplain) as Hres.
    repeat split.
    + unfold Stored.kick, bind at 1. rewrite (guild_attr_some self guild_id h log l g Hg Hobj).
      unfold GuildMember.kick, bind at 1. now rewrite Hres.
    + unfold Stored.kick, bind at 1. rewrite (guild_attr_some self guild_id h log l g Hg Hobj).
      unfold GuildMember.kick, bind at 1. now rewrite Hres.
    + unfold Stored.ban, GuildMember.ban.
      rewrite (guild_call_some self (Guild.create_ban self days) h log l g
                 _ _ Hg Hobj (Hban g)).
      now rewrite (on_guild_resolved (sub := GuildMember_sub) self
                     (Guild.create_ban self days) _ log gid g _ _ Hgid Hplain (Hban g)).
    + unfold Stored.ban, GuildMember.ban.
      rewrite (guild_call_some self (Guild.create_ban self days) h log l g
                 _ _ Hg Hobj (Hban g)).
      now rewrite (on_guild_resolved (sub := GuildMember_sub) self
                     (Guild.create_ban self days) _ log gid g _ _ Hgid Hplain (Hban g)).
    + unfold Stored.set_nickname, bind at 1. rewrite (guild_attr_some self guild_id h log l g Hg Hobj).
      unfold GuildMember.set_nickname, bind at 1. now rewrite Hres.
    + unfold Stored.set_nickname, bind at 1. rewrite (guild_attr_some self guild_id h log l g Hg Hobj).
      unfold GuildMember.set_nickname, bind at 1. now rewrite Hres.
    + unfold Stored.add_role, bind at 1. rewrite (guild_attr_some self guild_id h log l g Hg Hobj).
      unfold GuildMember.add_role, bind at 1. now rewrite Hres.
    + unfold Stored.add_role, bind at 1. rewrite (guild_attr_some self guild_id h log l g Hg Hobj).
      unfold GuildMember.add_role, bind at 1. now rewrite Hres.
  - assert (Hplain : forall gid, member_guild_id self = Some gid ->
                                 first_read_registry h !! gid = None).
    { intros gid Hgid. unfold guild_of in Hg. rewrite Hs in Hg. simpl in Hg.
      rewrite Hgid in Hg.
      unfold first_read_registry. now rewrite lookup_omap, Hg. }
    assert (Hres : GuildSubType_guild self (first_read_registry h, log)
                   = (Return None, (first_read_registry h, log))).
    { unfold GuildSubType_guild, bind, get_store, ret; simpl.
      destruct (member_guild_id self) as [gid|]; [|reflexivity].
      now rewrite (Hplain gid eq_refl). }
    assert (Hon : forall B (method : Py Guild B),
              on_guild self method (first_read_registry h, log)
              = (Raise AttributeError, (first_read_registry h, log))).
    { intros B method. unfold on_guild; simpl.
      destruct (member_guild_id self) as [gid|]; [|reflexivity].
      now rewrite (Hplain gid eq_refl). }
    repeat split.
    + unfold Stored.kick, bind at 1. rewrite (guild_attr_none self guild_id h log Hg).
      unfold GuildMember.kick, bind at 1. now rewrite Hres.
    + unfold Stored.kick, bind at 1. rewrite (guild_attr_none self guild_id h log Hg).
      unfold GuildMember.kick, bind at 1. now rewrite Hres.
    + unfold Stored.ban, GuildMember.ban.
      now rewrite (guild_call_none self _ h log Hg), Hon.
    + unfold Stored.ban, GuildMember.ban.
      now rewrite (guild_call_none self _ h log Hg), Hon.
    + unfold Stored.set_nickname, bind at 1. rewrite (guild_attr_none self guild_id h log Hg).
      unfold GuildMember.set_nickname, bind at 1. now rewrite Hres.
    + unfold Stored.set_nickname, bind at 1. rewrite (guild_attr_none self guild_id h log Hg).
      unfold GuildMember.set_nickname, bind at 1. now rewrite Hres.
    + unfold Stored.add_role, bind at 1. rewrite (guild_attr_none self guild_id h log Hg).
      unfold GuildMember.add_role, bind at 1. now rewrite Hres.
    + unfold Stored.add_role, bind at 1. rewrite (guild_attr_none self guild_id h log Hg).
      unfold GuildMember.add_role, bind at 1. now rewrite Hres.
Qed.

(** A member that has stored its guild goes on using that guild object,
    whatever the registry holds by now. *)
Lemma kick_uses_stored_guild (self : GuildMember) h log l g :
  stored_guild h = Some (Some l) -> guild_objects h !! l = Some g ->
  Stored.kick self (h, log)
  = (reply log (guilds_members_kick (guild_id g) (user_id (member_user self))),
     (h, log ++ [guilds_members_kick (guild_id g) (user_id (member_user self))])).
Proof.
  intros Hs Hl. unfold Stored.kick, bind at 1.
  rewrite (guild_attr_some self guild_id h log l g); [|unfold guild_of; now rewrite Hs|exact Hl].
  rewrite <- Hs, set_stored_guild_same. reflexivity.
Qed.

(** X11: when the [guild] property of a member gives [None] (it is read
    for the first time and the registry holds no guild under the member's
    [guild_id], or the member has no [guild_id], or [None] is what the
    member has stored), [kick], [ban], [set_nickname], [add_role] and
    [get_voice_state] raise [AttributeError] before any remote call is
    made, and so does a first read of [owner]; the guild objects and the
    registry are as they were. *)
Theorem member_methods_need_guild (self : GuildMember) h log
    (role : Role) (nickname : option string) (days : Z) :
  guild_of self h = None ->
  fails_before_any_call h log (Stored.kick self (h, log)) /\
  fails_before_any_call h log (Stored.ban self days (h, log)) /\
  fails_before_any_call h log (Stored.set_nickname self nickname (h, log)) /\
  fails_before_any_call h log (Stored.add_role self role (h, log)) /\
  fails_before_any_call h log (Stored.get_voice_state self (h, log)) /\
  (stored_owner h = None -> fails_before_any_call h log (Stored.owner self (h, log))).
Proof.
  intros Hg.
  split; [|split; [|split; [|split; [|split]]]].
  - unfold Stored.kick, bind at 1.
    rewrite (guild_attr_none self guild_id h log Hg). now repeat split.
  - unfold Stored.ban. rewrite (guild_call_none self _ h log Hg). now repeat split.
  - unfold Stored.set_nickname, bind at 1.
    rewrite (guild_attr_none self guild_id h log Hg). now repeat split.
  - unfold Stored.add_role, bind at 1.
    rewrite (guild_attr_none self guild_id h log Hg). now repeat split.
  - unfold Stored.get_voice_state. rewrite (guild_call_none self _ h log Hg).
    now repeat split.
  - intros Hs. unfold Stored.owner, cached_property, bind at 1, get_store at 1; simpl.
    rewrite Hs. unfold bind at 1, bind at 1.
    rewrite (guild_attr_none self guild_owner_id h log Hg). now repeat split.
Qed.

(** X14: when [owner] is read on a member for the first time and is
    true, [get_permissions] of the guild object that the member's [guild]
    property gives returns the administrator bitset for the member's
    user, whatever roles the member lists. *)
Theorem owner_has_administrator (self : GuildMember) h log l g log' :
  stored_owner h = None ->
  guild_of self h = Some l -> guild_objects h !! l = Some g ->
  fst (Stored.owner self (h, log)) = Return true ->
  Guild.get_permissions (member_user self) (g, log')
  = (Return (PermissionValue_new ADMINISTRATOR), (g, log')).
Proof.
  intros Hs Hg Hl.
  unfold Stored.owner, cached_property, bind at 1, get_store at 1; simpl.
  rewrite Hs. unfold bind at 1, bind at 1.
  rewrite (guild_attr_some self guild_owner_id h log l g Hg Hl).
  unfold bind, modify_store, ret; simpl. intros [= Hown].
  unfold Guild.get_permissions, bind at 1, get_store at 1; simpl.
  unfold member_id in Hown. now rewrite Hown.
Qed.

(** X16: the member's [get_voice_state] is the lookup, for the member's
    user id, in the guild object that the member's [guild] property gives
    (the stored one, or on a first read the registry's): it returns a
    voice state of that guild belonging to that user, or [None] exactly
    when that guild has none; it makes no remote call, and leaves the
    guild objects and the registry as they were, with that guild stored. *)
Theorem member_get_voice_state_delegates (self : GuildMember) h log l g :
  guild_of self h = Some l -> guild_objects h !! l = Some g ->
  exists r,
    Stored.get_voice_state self (h, log)
    = (Return r, (set_stored_guild (Some (Some l)) h, log)) /\
    match r with
    | Some state =>
        voice_user_id state = user_id (member_user self) /\
        exists k, guild_voice_states g !! k = Some state
    | None =>
        forall k state, guild_voice_states g !! k = Some state ->
                        voice_user_id state <> user_id (member_user self)
    end.
Proof.
  intros Hg Hl. eexists. split.
  - unfold Stored.get_voice_state.
    now apply (guild_call_some self (Guild.get_voice_state self) h log l g).
  - apply find_voice_state.
Qed.

End stored.

(** [kick] on the instance that stored the scenario guild before the guild
    left the registry: the call is made with that guild's id. *)
Example kick_after_guild_left :
  @Stored.kick generous_client (a_member (Some 1) 3 [5]) (detached_heap, [])
  = (Return tt, (detached_heap, [guilds_members_kick 1 3])).
Proof. vm_compute. reflexivity. Qed.

(** [owner] stays what it was when first read, here on an instance that
    stored [true] for a member who is not the guild's owner. *)
Example owner_read_again :
  @Stored.owner (a_member (Some 1) 3 [5]) (set_stored_owner (Some true) scenario_heap, [])
  = (Return true, (set_stored_owner (Some true) scenario_heap, [])).
Proof. vm_compute. reflexivity. Qed.

(** [member_methods_need_guild] at a member of guild 2, which the registry
    does not hold, on an instance that has read nothing yet. *)
Lemma member_methods_need_guild_witness :
  fails_before_any_call scenario_heap []
    (@Stored.add_role generous_client (a_member (Some 2) 3 [5]) (a_role 5 WRITE)
       (scenario_heap, [])) /\
  fails_before_any_call scenario_heap []
    (@Stored.get_voice_state (a_member (Some 2) 3 [5]) (scenario_heap, [])) /\
  fails_before_any_call scenario_heap []
    (@Stored.owner (a_member (Some 2) 3 [5]) (scenario_heap, [])).
Proof.
  destruct (@member_methods_need_guild generous_client (a_member (Some 2) 3 [5])
              scenario_heap [] (a_role 5 WRITE) None 0
              ltac:(vm_compute; reflexivity))
    as (_ & _ & _ & Hadd & Hvoice & Howner).
  split; [exact Hadd|]. split; [exact Hvoice|].
  exact (Howner ltac:(vm_compute; reflexivity)).
Defined.

(** [owner_has_administrator] at member 9, the owner of the scenario
    guild, on an instance that stored the guild before it left the
    registry. *)
Lemma owner_has_administrator_witness :
  @Guild.get_permissions generous_client discord_permissions {| user_id := 9 |}
    (scenario_guild, [])
  = (Return (PermissionValue_new 8), (scenario_guild, [])).
Proof.
  exact (@owner_has_administrator generous_client discord_permissions
           (a_member (Some 1) 9 []) detached_heap [] 1%positive scenario_guild []
           ltac:(vm_compute; reflexivity) ltac:(vm_compute; reflexivity)
           ltac:(vm_compute; reflexivity) ltac:(vm_compute; reflexivity)).
Defined.

(** [member_get_voice_state_delegates] at member 3, who has a voice state
    in the scenario guild, on the instance that stored the guild before it
    left the registry. *)
Lemma member_get_voice_state_delegates_witness :
  exists r,
    Stored.get_voice_state (a_member (Some 1) 3 [5]) (detached_heap, [])
    = (Return r, (detached_heap, [])) /\
    match r with
    | Some state =>
        voice_user_id state = 3 /\
        exists k, guild_voice_states scenario_guild !! k = Some state
    | None =>
        forall k state, guild_voice_states scenario_guild !! k = Some state ->
                        voice_user_id state <> 3
    end.
Proof.
  exact (member_get_voice_state_delegates (a_member (Some 1) 3 [5])
           detached_heap [] 1%positive scenario_guild
           ltac:(vm_compute; reflexivity) ltac:(vm_compute; reflexivity)).
Defined.
